(** * Billing page of the pharmacy client: cart, pricing and checkout

    Shallow embedding of [src/pages/Billing.tsx] (with the type declarations
    of [src/lib/api.ts]) and the properties of the sale-settlement
    specification checked against it.

    Conventions of the embedding.
    - A JavaScript [number] is an IEEE-754 binary64 value.  Amounts of money
      ([unitPrice], [sellingPrice], the discount percentage, the totals) are
      modelled by Rocq's primitive [float], whose operations are the binary64
      ones.  Quantities only ever hold integers (they start at [1] and move
      by integer steps; stock counts come from the server as integers); they
      are modelled by [Z] and enter the float world through [num_of_Z], the
      binary64 value of an integer, where the source multiplies a price by a
      quantity.
    - [string | undefined] is [option string]; [a || b] on such values is
      [js_or] (the empty string is falsy) and [===] is [jsid_eqb].
    - React state is threaded explicitly: a handler is a function of the
      state it closes over and of the outcome of the one remote call it may
      await, returning the state it sets together with the notices (toasts,
      console lines) it emits, in order.  Handlers are taken one at a time,
      each on the state the previous one left.

    The file first gives the embedding, then the vocabulary in which the
    properties are stated, then the lemmas and the theorems. *)

From Stdlib Require Import ZArith List String Ascii Bool Lia.
From Stdlib Require Import Decimal DecimalPos DecimalZ DecimalString.
From Stdlib Require Import Floats.PrimFloat Floats.SpecFloat Floats.FloatOps.
Import ListNotations.

Local Open Scope string_scope.
Local Open Scope list_scope.
Local Open Scope Z_scope.

(** * The embedding *)

(** ** JavaScript values *)

Module JS.

(** [string | undefined]. *)
Definition jsid := option string.

(** Truthiness of a [string | undefined]: [undefined] and [""] are falsy. *)
Definition truthy (a : jsid) : bool :=
  match a with
  | Some s => negb (String.eqb s "")
  | None => false
  end.

(** [a || b]. *)
Definition js_or (a b : jsid) : jsid := if truthy a then a else b.

(** [a || d] with a string default [d]. *)
Definition or_default (a : jsid) (d : string) : string :=
  match a with
  | Some s => if String.eqb s "" then d else s
  | None => d
  end.

(** [s || undefined] for a string [s]. *)
Definition or_undefined (s : string) : jsid :=
  if String.eqb s "" then None else Some s.

(** [a === b] on [string | undefined]. *)
Definition jsid_eqb (a b : jsid) : bool :=
  match a, b with
  | Some x, Some y => String.eqb x y
  | None, None => true
  | _, _ => false
  end.

(** The binary64 value of an integer (exact up to [2^53]). *)
Definition num_of_Z (z : Z) : float :=
  SF2Prim (binary_normalize prec emax z 0 false).

(** [`${n}`] for an integer-valued number. *)
Definition show (n : Z) : string := NilZero.string_of_int (Z.to_int n).

(** Outcome of awaiting a call of the API client: [request] either throws
    an [Error] or returns the decoded [ApiResponse]. *)
Inductive ApiResult (T : Type) : Type :=
| Threw (message : string)
| Returned (success : bool) (data : option T) (message : jsid).

Arguments Threw {T} message.
Arguments Returned {T} success data message.

End JS.

Import JS.

(** ** Data model *)

(** [Medicine] of [api.ts], with the fields the billing page fills in. *)
Record Medicine := mkMedicine {
  med__id : jsid;
  med_id : jsid;
  med_name : string;
  med_genericName : jsid;
  med_manufacturer : jsid;
  med_category : string;
  med_dosageForm : jsid;
  med_strength : jsid;
  med_barcode : jsid;
  med_prescriptionRequired : bool;
  med_status : string
}.

(** [Inventory] of [api.ts]: one batch of stock. *)
Record Inventory := mkInventory {
  inv__id : jsid;
  inv_id : jsid;
  inv_medicine : jsid;
  inv_batchNumber : string;
  inv_manufacturingDate : string;
  inv_expiryDate : string;
  inv_quantity : Z;
  inv_purchasePrice : float;
  inv_sellingPrice : float;
  inv_status : string
}.

Record CartItem := mkCartItem {
  medicine : Medicine;
  inventory : Inventory;
  quantity : Z;
  unitPrice : float
}.

(** A batch as listed by the billing endpoints. *)
Record Batch := mkBatch {
  batchId : jsid;
  batchNumber : string;
  manufacturingDate : string;
  expiryDate : string;
  batch_quantity : Z;
  sellingPrice : float
}.

(** An entry of [searchMedicinesForBilling]. *)
Record MedicineData := mkMedicineData {
  md__id : jsid;
  md_id : jsid;
  md_name : string;
  md_genericName : jsid;
  md_manufacturer : jsid;
  md_category : string;
  md_dosageForm : jsid;
  md_strength : jsid;
  md_barcode : jsid;
  md_prescriptionRequired : bool;
  md_status : jsid;
  hasStock : bool;
  batches : option (list Batch);
  availableStock : Z
}.

(** What a handler shows or logs. *)
Inductive Notice : Type :=
| toast_error (msg : string)
| toast_success (msg : string)
| console_error (label : string).

Definition Cart := list CartItem.

(** [item.medicine._id || item.medicine.id]. *)
Definition itemKey (item : CartItem) : jsid :=
  js_or (med__id (medicine item)) (med_id (medicine item)).

Definition setQuantity (item : CartItem) (q : Z) : CartItem :=
  {| medicine := medicine item;
     inventory := inventory item;
     quantity := q;
     unitPrice := unitPrice item |}.

(** ** Cart handlers *)

Definition noStockMsg : string := "No available stock for this medicine".

Definition insufficientMsg (totalAvailable : Z) : string :=
  ("Insufficient stock. Available: " ++ show totalAvailable)%string.

Definition medicineOf (medicineData : MedicineData) : Medicine :=
  let i := js_or (md__id medicineData) (md_id medicineData) in
  {| med__id := i;
     med_id := i;
     med_name := md_name medicineData;
     med_genericName := md_genericName medicineData;
     med_manufacturer := md_manufacturer medicineData;
     med_category := md_category medicineData;
     med_dosageForm := md_dosageForm medicineData;
     med_strength := md_strength medicineData;
     med_barcode := md_barcode medicineData;
     med_prescriptionRequired := md_prescriptionRequired medicineData;
     med_status := or_default (md_status medicineData) "active" |}.

Definition inventoryOf (medicine : Medicine) (selectedBatch : Batch) : Inventory :=
  {| inv__id := batchId selectedBatch;
     inv_id := batchId selectedBatch;
     inv_medicine := js_or (med__id medicine) (med_id medicine);
     inv_batchNumber := batchNumber selectedBatch;
     inv_manufacturingDate := manufacturingDate selectedBatch;
     inv_expiryDate := expiryDate selectedBatch;
     inv_quantity := batch_quantity selectedBatch;
     inv_purchasePrice := 0%float;
     inv_sellingPrice := sellingPrice selectedBatch;
     inv_status := "available" |}.

Definition addToCart (cart : Cart) (medicineData : MedicineData)
  : Cart * list Notice :=
  match hasStock medicineData, batches medicineData with
  | true, Some (selectedBatch :: _) =>
      let medicine := medicineOf medicineData in
      let inventoryItem := inventoryOf medicine selectedBatch in
      let key := js_or (med__id medicine) (med_id medicine) in
      match find (fun item => jsid_eqb (itemKey item) key) cart with
      | Some existingItem =>
          let totalRequested := quantity existingItem + 1 in
          let totalAvailable := availableStock medicineData in
          if totalRequested >? totalAvailable
          then (cart, [toast_error (insufficientMsg totalAvailable)])
          else (map (fun item =>
                       if jsid_eqb (itemKey item) key
                       then setQuantity item (quantity item + 1)
                       else item) cart,
                [])
      | None =>
          (cart ++ [ {| medicine := medicine;
                        inventory := inventoryItem;
                        quantity := 1;
                        unitPrice := sellingPrice selectedBatch |} ],
           [])
      end
  | _, _ => (cart, [toast_error noStockMsg])
  end.

Definition removeFromCart (cart : Cart) (medicineId : string) : Cart :=
  filter (fun item =>
            negb (jsid_eqb (med__id (medicine item)) (Some medicineId))
            && negb (jsid_eqb (med_id (medicine item)) (Some medicineId)))
         cart.

(** Payload of [getMedicineBatches]. *)
Record BatchesData := mkBatchesData { bd_batches : list Batch }.

(** [response.data.batches.reduce((sum, batch) => sum + batch.quantity, 0)]. *)
Definition totalOfBatches (bs : list Batch) : Z :=
  fold_left (fun sum batch => sum + batch_quantity batch) bs 0.

(** [response] is the outcome of [apiClient.getMedicineBatches(medicineId)],
    which is awaited only once the item was found and the new quantity is
    positive.  The stock check applies when the call returned with success
    and data; a thrown error is caught and logged, and the cart is then set
    all the same. *)
Definition updateQuantity (cart : Cart) (medicineId : string) (delta : Z)
           (response : ApiResult BatchesData) : Cart * list Notice :=
  match find (fun item => jsid_eqb (itemKey item) (Some medicineId)) cart with
  | None => (cart, [])
  | Some item =>
      let newQuantity := quantity item + delta in
      if newQuantity <=? 0 then (removeFromCart cart medicineId, [])
      else
        let updated :=
          map (fun item =>
                 if jsid_eqb (itemKey item) (Some medicineId)
                 then setQuantity item newQuantity
                 else item) cart in
        match response with
        | Returned true (Some data) _ =>
            let totalAvailable := totalOfBatches (bd_batches data) in
            if newQuantity >? totalAvailable
            then (cart, [toast_error (insufficientMsg totalAvailable)])
            else (updated, [])
        | Returned _ _ _ => (updated, [])
        | Threw _ => (updated, [console_error "Error checking stock:"])
        end
  end.

(** ** Pricing *)

Record Totals := mkTotals {
  subtotal : float;
  discount : float;
  vatAmount : float;
  total : float
}.

(** [item.unitPrice * item.quantity], a binary64 product. *)
Definition lineAmount (item : CartItem) : float :=
  (unitPrice item * num_of_Z (quantity item))%float.

Definition calculateTotals (cart : Cart) (discountPercentage : float) : Totals :=
  let subtotal := fold_left (fun sum item => (sum + lineAmount item)%float) cart 0%float in
  let discount := ((subtotal * discountPercentage) / 100)%float in
  let afterDiscount := (subtotal - discount)%float in
  let vatRate := 13%float in
  let vatAmount := ((afterDiscount * vatRate) / 100)%float in
  let total := (afterDiscount + vatAmount)%float in
  {| subtotal := subtotal; discount := discount; vatAmount := vatAmount; total := total |}.

(** ** Checkout *)

Inductive PaymentMethod : Type :=
| cash | card | esewa | khalti | mobile_payment | credit.

Inductive PaymentStatus : Type :=
| paid | partial | pending.

(** One entry of [saleData.items]. *)
Record SaleItem := mkSaleItem {
  si_medicine : jsid;
  si_inventory : jsid;
  si_batchNumber : string;
  si_quantity : Z;
  si_unitPrice : float;
  si_subtotal : float
}.

(** The body posted to [/sales]. *)
Record SaleData := mkSaleData {
  sd_customerName : jsid;
  sd_customerMobile : jsid;
  sd_items : list SaleItem;
  sd_subtotal : float;
  sd_discount : float;
  sd_discountPercentage : float;
  sd_vatRate : float;
  sd_vatAmount : float;
  sd_totalAmount : float;
  sd_paymentMethod : PaymentMethod;
  sd_paymentStatus : PaymentStatus;
  sd_amountPaid : float;
  sd_amountDue : float
}.

(** The part of the created sale the page reads back. *)
Record CreatedSale := mkCreatedSale {
  cs__id : jsid;
  cs_id : jsid
}.

(** The state of the [Billing] component. *)
Record State := mkState {
  cart : Cart;
  customerName : string;
  customerMobile : string;
  discountPercentage : float;
  paymentMethod : PaymentMethod;
  lastInvoiceId : jsid;
  isSubmitting : bool;
  searchQuery : string;
  searchResults : list MedicineData
}.

Definition initialState : State :=
  {| cart := [];
     customerName := "";
     customerMobile := "";
     discountPercentage := 0%float;
     paymentMethod := cash;
     lastInvoiceId := None;
     isSubmitting := false;
     searchQuery := "";
     searchResults := [] |}.

Definition saleItemOf (item : CartItem) : SaleItem :=
  {| si_medicine := js_or (med__id (medicine item)) (med_id (medicine item));
     si_inventory := js_or (inv__id (inventory item)) (inv_id (inventory item));
     si_batchNumber := inv_batchNumber (inventory item);
     si_quantity := quantity item;
     si_unitPrice := unitPrice item;
     si_subtotal := lineAmount item |}.

(** The [saleData] object built by [handleCheckout]. *)
Definition saleDataOf (st : State) : SaleData :=
  let t := calculateTotals (cart st) (discountPercentage st) in
  {| sd_customerName := or_undefined (customerName st);
     sd_customerMobile := or_undefined (customerMobile st);
     sd_items := map saleItemOf (cart st);
     sd_subtotal := subtotal t;
     sd_discount := discount t;
     sd_discountPercentage := discountPercentage st;
     sd_vatRate := 13%float;
     sd_vatAmount := vatAmount t;
     sd_totalAmount := total t;
     sd_paymentMethod := paymentMethod st;
     sd_paymentStatus := paid;
     sd_amountPaid := total t;
     sd_amountDue := 0%float |}.

(** What one run of [handleCheckout] leaves behind: the component state,
    the notices, and the body passed to [apiClient.createSale], if the call
    was made at all. *)
Record Outcome := mkOutcome {
  after : State;
  notices : list Notice;
  submitted : option SaleData
}.

Definition setIsSubmitting (st : State) (b : bool) : State :=
  {| cart := cart st;
     customerName := customerName st;
     customerMobile := customerMobile st;
     discountPercentage := discountPercentage st;
     paymentMethod := paymentMethod st;
     lastInvoiceId := lastInvoiceId st;
     isSubmitting := b;
     searchQuery := searchQuery st;
     searchResults := searchResults st |}.

(** The [catch] and [finally] blocks of [handleCheckout]. *)
Definition checkoutFailed (st : State) (saleData : SaleData) (message : string)
  : Outcome :=
  {| after := setIsSubmitting st false;
     notices := [console_error "Error creating sale:";
                 toast_error (or_default (Some message) "Failed to complete sale")];
     submitted := Some saleData |}.

(** [response] is the outcome of [apiClient.createSale(saleData)]. *)
Definition handleCheckout (st : State) (response : ApiResult CreatedSale)
  : Outcome :=
  match cart st with
  | [] => {| after := st;
             notices := [toast_error "Cart is empty"];
             submitted := None |}
  | _ :: _ =>
      let saleData := saleDataOf st in
      match response with
      | Returned true (Some data) _ =>
          let invoiceId := js_or (cs__id data) (cs_id data) in
          {| after := {| cart := [];
                         customerName := "";
                         customerMobile := "";
                         discountPercentage := 0%float;
                         paymentMethod := paymentMethod st;
                         lastInvoiceId := invoiceId;
                         isSubmitting := false;
                         searchQuery := "";
                         searchResults := [] |};
             notices := [toast_success "Sale completed successfully!"];
             submitted := Some saleData |}
      | Returned _ _ message =>
          checkoutFailed st saleData (or_default message "Failed to create sale")
      | Threw message => checkoutFailed st saleData message
      end
  end.

(** The [onChange] handler of the discount input:
    [setDiscountPercentage(parseFloat(e.target.value) || 0)], given the
    number [parseFloat] returned. *)
Definition discountOfInput (parsed : float) : float :=
  if is_nan parsed || is_zero parsed then 0%float else parsed.

(** ** The page as a transition system *)

Inductive Event : Type :=
| EvAddToCart (medicineData : MedicineData)
| EvUpdateQuantity (medicineId : string) (delta : Z)
                   (response : ApiResult BatchesData)
| EvRemoveFromCart (medicineId : string)
| EvCustomerName (value : string)
| EvCustomerMobile (value : string)
| EvDiscount (parsed : float)
| EvPaymentMethod (value : PaymentMethod)
| EvCheckout (response : ApiResult CreatedSale).

Definition setCart (st : State) (c : Cart) : State :=
  {| cart := c;
     customerName := customerName st;
     customerMobile := customerMobile st;
     discountPercentage := discountPercentage st;
     paymentMethod := paymentMethod st;
     lastInvoiceId := lastInvoiceId st;
     isSubmitting := isSubmitting st;
     searchQuery := searchQuery st;
     searchResults := searchResults st |}.

Definition step (st : State) (e : Event) : State :=
  match e with
  | EvAddToCart medicineData => setCart st (fst (addToCart (cart st) medicineData))
  | EvUpdateQuantity medicineId delta response =>
      setCart st (fst (updateQuantity (cart st) medicineId delta response))
  | EvRemoveFromCart medicineId => setCart st (removeFromCart (cart st) medicineId)
  | EvCustomerName value =>
      {| cart := cart st; customerName := value;
         customerMobile := customerMobile st;
         discountPercentage := discountPercentage st;
         paymentMethod := paymentMethod st;
         lastInvoiceId := lastInvoiceId st;
         isSubmitting := isSubmitting st;
         searchQuery := searchQuery st;
         searchResults := searchResults st |}
  | EvCustomerMobile value =>
      {| cart := cart st; customerName := customerName st;
         customerMobile := value;
         discountPercentage := discountPercentage st;
         paymentMethod := paymentMethod st;
         lastInvoiceId := lastInvoiceId st;
         isSubmitting := isSubmitting st;
         searchQuery := searchQuery st;
         searchResults := searchResults st |}
  | EvDiscount parsed =>
      {| cart := cart st; customerName := customerName st;
         customerMobile := customerMobile st;
         discountPercentage := discountOfInput parsed;
         paymentMethod := paymentMethod st;
         lastInvoiceId := lastInvoiceId st;
         isSubmitting := isSubmitting st;
         searchQuery := searchQuery st;
         searchResults := searchResults st |}
  | EvPaymentMethod value =>
      {| cart := cart st; customerName := customerName st;
         customerMobile := customerMobile st;
         discountPercentage := discountPercentage st;
         paymentMethod := value;
         lastInvoiceId := lastInvoiceId st;
         isSubmitting := isSubmitting st;
         searchQuery := searchQuery st;
         searchResults := searchResults st |}
  | EvCheckout response => after (handleCheckout st response)
  end.

(** States the page can be in: the initial one, and any state a handler
    sets when run on a state the page has been in. *)
Inductive reachable : State -> Prop :=
| reach_init : reachable initialState
| reach_step st e : reachable st -> reachable (step st e).

Definition run (events : list Event) : State :=
  fold_left step events initialState.

(** ** Strings of the search box *)

(** In this part a JavaScript string is a sequence of code units below 256;
    [String.prototype.trim] removes the white space and line terminators of
    that range from both ends. *)
Definition isWhiteSpace (a : ascii) : bool :=
  let n := nat_of_ascii a in
  Nat.eqb n 9 || Nat.eqb n 10 || Nat.eqb n 11 || Nat.eqb n 12
  || Nat.eqb n 13 || Nat.eqb n 32 || Nat.eqb n 160.

Fixpoint trimStart (s : string) : string :=
  match s with
  | String a s' => if isWhiteSpace a then trimStart s' else s
  | EmptyString => EmptyString
  end.

Fixpoint trimEnd (s : string) : string :=
  match s with
  | String a s' =>
      match trimEnd s' with
      | EmptyString => if isWhiteSpace a then EmptyString else String a EmptyString
      | r => String a r
      end
  | EmptyString => EmptyString
  end.

(** [s.trim()]. *)
Definition trim (s : string) : string := trimEnd (trimStart s).

(** A character of the class [[A-Z0-9]] under the flag [i]. *)
Definition isAlnum (a : ascii) : bool :=
  let n := nat_of_ascii a in
  (Nat.leb 48 n && Nat.leb n 57)
  || (Nat.leb 65 n && Nat.leb n 90)
  || (Nat.leb 97 n && Nat.leb n 122).

Fixpoint allAlnum (s : string) : bool :=
  match s with
  | String a s' => isAlnum a && allAlnum s'
  | EmptyString => true
  end.

(** [/^[A-Z0-9]+$/i.test(s)]. *)
Definition barcodePattern (s : string) : bool :=
  negb (String.eqb s "") && allAlnum s.

(** [s.includes(pattern)]. *)
Fixpoint includes (s pattern : string) : bool :=
  String.prefix pattern s
  || match s with
     | String _ s' => includes s' pattern
     | EmptyString => false
     end.

(** ** Search *)

(** The entries [apiClient.searchMedicinesForBilling(query, barcode)]
    appends to its [URLSearchParams], in order. *)
Definition searchMedicinesForBilling (query : string) (barcode : jsid)
  : list (string * string) :=
  (if String.eqb query "" then [] else [("q", query)])
  ++ (if truthy barcode then [("barcode", or_default barcode "")] else []).

(** The two state variables the search handlers set. *)
Record SearchView := mkSearchView {
  sv_results : list MedicineData;
  sv_loading : bool
}.

(** What one run of a search handler leaves behind: the view, the notices,
    and the parameters of the search request, if one was made. *)
Record SearchRun := mkSearchRun {
  sr_view : SearchView;
  sr_notices : list Notice;
  sr_request : option (list (string * string))
}.

(** [response] is the outcome of the search request. *)
Definition searchMedicines (view : SearchView) (query : string)
           (response : ApiResult (list MedicineData)) : SearchRun :=
  if String.eqb (trim query) ""
  then {| sr_view := {| sv_results := []; sv_loading := sv_loading view |};
          sr_notices := [];
          sr_request := None |}
  else
    let isBarcode :=
      barcodePattern (trim query) && Nat.leb 3 (String.length (trim query)) in
    let request :=
      if isBarcode
      then searchMedicinesForBilling "" (Some (trim query))
      else searchMedicinesForBilling (trim query) None in
    match response with
    | Returned true (Some data) _ =>
        {| sr_view := {| sv_results := data; sv_loading := false |};
           sr_notices := [];
           sr_request := Some request |}
    | Returned _ _ _ =>
        {| sr_view := {| sv_results := []; sv_loading := false |};
           sr_notices := [];
           sr_request := Some request |}
    | Threw message =>
        {| sr_view := {| sv_results := []; sv_loading := false |};
           sr_notices := [console_error "Error searching medicines:";
                          toast_error (or_default (Some message)
                                                  "Failed to search medicines")];
           sr_request := Some request |}
    end.

Definition handleBarcodeSearch (view : SearchView) (barcode : string)
           (response : ApiResult (list MedicineData)) : SearchRun :=
  if String.eqb (trim barcode) ""
  then {| sr_view := view; sr_notices := []; sr_request := None |}
  else searchMedicines view (trim barcode) response.

(** [key] is [e.key]. *)
Definition handleSearchKeyPress (view : SearchView) (key : string)
           (searchQuery : string) (response : ApiResult (list MedicineData))
  : SearchRun :=
  if String.eqb key "Enter" && negb (String.eqb (trim searchQuery) "")
  then searchMedicines view (trim searchQuery) response
  else {| sr_view := view; sr_notices := []; sr_request := None |}.

(** ** Printing and the guards of the buttons *)

(** What [printInvoice] does: an error toast, or [window.open(url, target)]. *)
Inductive PrintRun : Type :=
| PrintRefused (notice : Notice)
| WindowOpened (url target : string).

Definition printInvoice (st : State) : PrintRun :=
  if truthy (lastInvoiceId st)
  then WindowOpened ("/invoice/" ++ or_default (lastInvoiceId st) "")%string
                    "_blank"
  else PrintRefused (toast_error "No invoice to print").

(** The [Add] button of a search result is enabled:
    [medicine.hasStock && medicine.availableStock > 0]. *)
Definition addEnabled (medicine : MedicineData) : bool :=
  hasStock medicine && (availableStock medicine >? 0).

(** The [Complete Sale] button is enabled:
    not [isSubmitting || cart.length === 0]. *)
Definition checkoutEnabled (st : State) : bool :=
  negb (isSubmitting st || Nat.eqb (List.length (cart st)) 0).

(** The [Print Invoice] button is rendered: it sits in the branch of
    [cart.length === 0 ? ... : ...] for a cart that is not empty, under
    [lastInvoiceId && ...]. *)
Definition printVisible (st : State) : bool :=
  negb (Nat.eqb (List.length (cart st)) 0) && truthy (lastInvoiceId st).

(** ** The API client *)

(** The tokens of the [ApiClient] instance and their copies in
    [localStorage]. *)
Record Session := mkSession {
  baseURL : string;
  accessToken : jsid;
  refreshToken : jsid;
  storedAccessToken : jsid;
  storedRefreshToken : jsid
}.

Definition setTokens (ss : Session) (access refresh : string) : Session :=
  {| baseURL := baseURL ss;
     accessToken := Some access;
     refreshToken := Some refresh;
     storedAccessToken := Some access;
     storedRefreshToken := Some refresh |}.

Definition clearTokens (ss : Session) : Session :=
  {| baseURL := baseURL ss;
     accessToken := None;
     refreshToken := None;
     storedAccessToken := None;
     storedRefreshToken := None |}.

(** The constructor's [loadTokens]. *)
Definition loadTokens (ss : Session) : Session :=
  {| baseURL := baseURL ss;
     accessToken := storedAccessToken ss;
     refreshToken := storedRefreshToken ss;
     storedAccessToken := storedAccessToken ss;
     storedRefreshToken := storedRefreshToken ss |}.

(** One entry of [ApiResponse.errors]. *)
Record FieldError := mkFieldError {
  fe_msg : string;
  fe_param : string
}.

(** [ApiResponse<T>], as decoded from a JSON body. *)
Record ApiResponse (T : Type) := mkApiResponse {
  ar_success : bool;
  ar_data : option T;
  ar_message : jsid;
  ar_errors : option (list FieldError)
}.

Arguments mkApiResponse {T} ar_success ar_data ar_message ar_errors.
Arguments ar_success {T} a.
Arguments ar_data {T} a.
Arguments ar_message {T} a.
Arguments ar_errors {T} a.

(** A [Response] of [fetch]: its status, its [content-type] header, what
    [response.json()] resolves to ([None] when it rejects) and what
    [response.text()] resolves to. *)
Record HttpResponse (T : Type) := mkHttpResponse {
  status : Z;
  contentType : jsid;
  json : option (ApiResponse T);
  text : string
}.

Arguments mkHttpResponse {T} status contentType json text.
Arguments status {T} h.
Arguments contentType {T} h.
Arguments json {T} h.
Arguments text {T} h.

(** [response.ok]. *)
Definition ok {T : Type} (response : HttpResponse T) : bool :=
  (200 <=? status response) && (status response <=? 299).

(** Outcome of awaiting [fetch]: it rejects with an error or resolves with a
    response. *)
Inductive Fetched (R : Type) : Type :=
| Rejected (message : string)
| Resolved (response : R).

Arguments Rejected {R} message.
Arguments Resolved {R} response.

(** The payload of [/auth/refresh-token]. *)
Record TokenPair := mkTokenPair {
  tp_accessToken : string;
  tp_refreshToken : string
}.

(** A call of [fetch] made by the client: to the endpoint, with the
    [Authorization] header it carried, or to [/auth/refresh-token], with the
    refresh token it posted. *)
Inductive Sent : Type :=
| SentCall (url : string) (authorization : jsid)
| SentRefresh (url : string) (posted : jsid).

Record RefreshRun := mkRefreshRun {
  rr_refreshed : bool;
  rr_session : Session;
  rr_notices : list Notice;
  rr_sent : list Sent
}.

(** [world] is the outcome of the one [fetch] the method may make. *)
Definition refreshAccessToken (ss : Session)
           (world : Fetched (HttpResponse TokenPair)) : RefreshRun :=
  if negb (truthy (refreshToken ss))
  then {| rr_refreshed := false; rr_session := ss;
          rr_notices := []; rr_sent := [] |}
  else
    let sent :=
      [SentRefresh (baseURL ss ++ "/auth/refresh-token")%string
                   (refreshToken ss)] in
    let failed (notices : list Notice) :=
      {| rr_refreshed := false; rr_session := clearTokens ss;
         rr_notices := notices; rr_sent := sent |} in
    match world with
    | Rejected _ => failed [console_error "Failed to refresh token:"]
    | Resolved response =>
        if ok response
        then match json response with
             | None => failed [console_error "Failed to refresh token:"]
             | Some data =>
                 match ar_success data, ar_data data with
                 | true, Some tokens =>
                     {| rr_refreshed := true;
                        rr_session := setTokens ss (tp_accessToken tokens)
                                                (tp_refreshToken tokens);
                        rr_notices := [];
                        rr_sent := sent |}
                 | _, _ => failed []
                 end
             end
        else failed []
    end.

Definition connectionMsg : string :=
  "Unable to connect to server. Please ensure the backend is running on http://localhost:5000".

(** The [catch] around each [fetch] of [request]: the message of the error
    thrown on. *)
Definition fetchError (message : string) : string :=
  if includes message "Failed to fetch" || includes message "NetworkError"
  then connectionMsg
  else message.

(** The message thrown for a response that is not [ok]. *)
Definition failureMessage {T : Type} (data : ApiResponse T) : string :=
  match ar_errors data with
  | Some (e :: es) =>
      or_default (Some (String.concat ", " (map fe_msg (e :: es))))
                 (or_default (ar_message data) "Request failed")
  | _ => or_default (ar_message data) "Request failed"
  end.

(** The part of [request] after the fetches: decoding the response. *)
Definition decode {T : Type} (response : HttpResponse T) : ApiResult T :=
  if truthy (contentType response)
     && includes (or_default (contentType response) "") "application/json"
  then match json response with
       | None =>
           Threw ("Server returned invalid response. Status: "
                  ++ show (status response))%string
       | Some data =>
           if ok response
           then Returned (ar_success data) (ar_data data) (ar_message data)
           else Threw (failureMessage data)
       end
  else Threw (or_default (Some (text response))
                         ("Request failed with status "
                          ++ show (status response))%string).

Record RequestRun (T : Type) := mkRequestRun {
  rq_result : ApiResult T;
  rq_session : Session;
  rq_notices : list Notice;
  rq_sent : list Sent
}.

Arguments mkRequestRun {T} rq_result rq_session rq_notices rq_sent.
Arguments rq_result {T} r.
Arguments rq_session {T} r.
Arguments rq_notices {T} r.
Arguments rq_sent {T} r.

(** [`Bearer ${token}`], set when the access token is truthy. *)
Definition bearer (token : jsid) : jsid :=
  if truthy token then Some ("Bearer " ++ or_default token "")%string else None.

(** [request(endpoint, options)]; [first], [refresh] and [retry] are the
    outcomes of the fetch of the endpoint, of the fetch made by
    [refreshAccessToken] and of the second fetch of the endpoint, for those of
    them that are made. *)
Definition request {T : Type} (ss : Session) (endpoint : string)
           (first : Fetched (HttpResponse T))
           (refresh : Fetched (HttpResponse TokenPair))
           (retry : Fetched (HttpResponse T)) : RequestRun T :=
  let url := (baseURL ss ++ endpoint)%string in
  let call := SentCall url (bearer (accessToken ss)) in
  match first with
  | Rejected message =>
      {| rq_result := Threw (fetchError message); rq_session := ss;
         rq_notices := []; rq_sent := [call] |}
  | Resolved response =>
      if (status response =? 401) && truthy (refreshToken ss)
      then
        let rr := refreshAccessToken ss refresh in
        if rr_refreshed rr
        then
          let again :=
            SentCall url (Some ("Bearer "
                                ++ or_default (accessToken (rr_session rr)) "")%string) in
          match retry with
          | Rejected message =>
              {| rq_result := Threw (fetchError message);
                 rq_session := rr_session rr;
                 rq_notices := rr_notices rr;
                 rq_sent := call :: rr_sent rr ++ [again] |}
          | Resolved response' =>
              {| rq_result := decode response';
                 rq_session := rr_session rr;
                 rq_notices := rr_notices rr;
                 rq_sent := call :: rr_sent rr ++ [again] |}
          end
        else
          {| rq_result := decode response;
             rq_session := rr_session rr;
             rq_notices := rr_notices rr;
             rq_sent := call :: rr_sent rr |}
      else
        {| rq_result := decode response; rq_session := ss;
           rq_notices := []; rq_sent := [call] |}
  end.

(** [apiClient.createSale(data)] and [apiClient.getMedicineBatches(id)]. *)
Definition createSale (ss : Session)
           (first : Fetched (HttpResponse CreatedSale))
           (refresh : Fetched (HttpResponse TokenPair))
           (retry : Fetched (HttpResponse CreatedSale))
  : RequestRun CreatedSale :=
  request ss "/sales" first refresh retry.

Definition getMedicineBatches (ss : Session) (medicineId : string)
           (first : Fetched (HttpResponse BatchesData))
           (refresh : Fetched (HttpResponse TokenPair))
           (retry : Fetched (HttpResponse BatchesData))
  : RequestRun BatchesData :=
  request ss ("/billing/medicines/" ++ medicineId ++ "/batches")%string
          first refresh retry.

(** * Vocabulary of the properties *)

(** ** Carts *)

(** [cart.find(item => key(item) === k)]. *)
Definition lookup (c : Cart) (k : jsid) : option CartItem :=
  find (fun item => jsid_eqb (itemKey item) k) c.

(** The key [addToCart] searches the cart for. *)
Definition keyOfData (medicineData : MedicineData) : jsid :=
  js_or (md__id medicineData) (md_id medicineData).

(** Every item carries the medicine built by [addToCart], whose [_id] and
    [id] agree, and a positive quantity; no two items share a key. *)
Definition wellFormed (item : CartItem) : Prop :=
  1 <= quantity item /\ med__id (medicine item) = med_id (medicine item).

Definition cart_inv (c : Cart) : Prop :=
  Forall wellFormed c /\ NoDup (map itemKey c).

(** [cart.map(item => key(item) === k ? { ...item, quantity: f(item) } : item)],
    the shape of the two cart rewrites of [addToCart] and [updateQuantity]. *)
Definition bump (k : jsid) (f : CartItem -> Z) (item : CartItem) : CartItem :=
  if jsid_eqb (itemKey item) k then setQuantity item (f item) else item.

(** ** Sample data *)

Module Sample.

(** The scenario of the specification: medicine M with batch B1 (expiry
    2025-01-01, 5 units) and batch B2 (expiry 2025-06-01, 10 units). *)
Definition batchB1 : Batch :=
  {| batchId := Some "b1"; batchNumber := "B1";
     manufacturingDate := "2024-01-01"; expiryDate := "2025-01-01";
     batch_quantity := 5; sellingPrice := 10%float |}.

Definition batchB2 : Batch :=
  {| batchId := Some "b2"; batchNumber := "B2";
     manufacturingDate := "2024-06-01"; expiryDate := "2025-06-01";
     batch_quantity := 10; sellingPrice := 10%float |}.

Definition paracetamol : MedicineData :=
  {| md__id := Some "m1"; md_id := None;
     md_name := "Paracetamol"; md_genericName := None;
     md_manufacturer := None; md_category := "tablet";
     md_dosageForm := None; md_strength := Some "500mg";
     md_barcode := None; md_prescriptionRequired := false;
     md_status := Some "active";
     hasStock := true;
     batches := Some [batchB1; batchB2];
     availableStock := 15 |}.


(** The same medicine when a single unit is left, in one batch. *)
Definition batchLast : Batch :=
  {| batchId := Some "b9"; batchNumber := "B9";
     manufacturingDate := "2024-01-01"; expiryDate := "2025-01-01";
     batch_quantity := 1; sellingPrice := 10%float |}.

Definition lastUnit : MedicineData :=
  {| md__id := Some "m1"; md_id := None;
     md_name := "Paracetamol"; md_genericName := None;
     md_manufacturer := None; md_category := "tablet";
     md_dosageForm := None; md_strength := Some "500mg";
     md_barcode := None; md_prescriptionRequired := false;
     md_status := Some "active";
     hasStock := true;
     batches := Some [batchLast];
     availableStock := 1 |}.

(** Answers of the server. *)
Definition created : ApiResult CreatedSale :=
  Returned true (Some {| cs__id := Some "s1"; cs_id := None |}) None.

Definition stockListed : ApiResult BatchesData :=
  Returned true (Some (mkBatchesData [batchB1; batchB2])) None.

Definition serverDown {T : Type} : ApiResult T :=
  Threw "Unable to connect to server. Please ensure the backend is running on http://localhost:5000".

(** The cart item one click on [Add] creates. *)
Definition firstUnit : CartItem :=
  mkCartItem (medicineOf paracetamol)
             (inventoryOf (medicineOf paracetamol) batchB1) 1 10%float.

Definition onlyUnit : CartItem :=
  mkCartItem (medicineOf lastUnit)
             (inventoryOf (medicineOf lastUnit) batchLast) 1 10%float.

(** The page after one click on [Add]; after two; after one click on [Add]
    and 7, respectively 14, clicks on [+] of the cart line, each with the
    stock listed by the server; and with the last unit in the cart. *)
Definition oneInCart : State := run [EvAddToCart paracetamol].

Definition twoInCart : State :=
  run [EvAddToCart paracetamol; EvAddToCart paracetamol].


Definition allInCart : State :=
  run (EvAddToCart paracetamol
       :: repeat (EvUpdateQuantity "m1" 1 stockListed) 14).

Definition lastInCart : State := run [EvAddToCart lastUnit].

(** One unit in the cart, to be paid on credit; one unit in the cart and a
    discount of 150 typed in. *)
Definition onCredit : State :=
  run [EvAddToCart paracetamol; EvPaymentMethod credit].

Definition discounted150 : State :=
  run [EvAddToCart paracetamol; EvDiscount 150%float].

End Sample.

(** ** Readings of the specification and the terms of the amended statements *)

(** The guards of [addToCart] let the increment of [existingItem] through. *)
Definition stockAllows (medicineData : MedicineData) (existingItem : CartItem)
  : bool :=
  hasStock medicineData
  && match batches medicineData with
     | Some (_ :: _) => true
     | _ => false
     end
  && (quantity existingItem + 1 <=? availableStock medicineData).

(** The unguarded reading: adding a medicine that is in the cart always
    raises its quantity by one. *)
Definition incrementsExisting (c : Cart) (medicineData : MedicineData) : Prop :=
  forall existingItem,
    lookup c (keyOfData medicineData) = Some existingItem ->
    option_map quantity (lookup (fst (addToCart c medicineData))
                                (keyOfData medicineData))
    = Some (quantity existingItem + 1).

(** A handler run that rejects its input: the cart is as before and an
    error is shown. *)
Definition rejectedAsInvalid (before : Cart) (out : Cart * list Notice) : Prop :=
  fst out = before /\ exists msg, In (toast_error msg) (snd out).

(** The handler refused the request: the cart is as before and the one
    notice is the insufficient-stock error with the available quantity. *)
Definition reportsInsufficient (before : Cart) (available : Z)
           (out : Cart * list Notice) : Prop :=
  out = (before, [toast_error (insufficientMsg available)]).

(** [response] is a possible outcome of asking for the batches of a medicine
    whose eligible batches are [stock]: the call may fail, and when it
    succeeds it lists [stock]. *)
Definition answersFor (stock : list Batch) (response : ApiResult BatchesData)
  : Prop :=
  match response with
  | Returned true (Some data) _ => bd_batches data = stock
  | _ => True
  end.

(** The unguarded reading for [updateQuantity]: a quantity above the total
    of [stock] is refused. *)
Definition refusesOverdraw (c : Cart) (medicineId : string) (delta : Z)
           (stock : list Batch) (response : ApiResult BatchesData) : Prop :=
  forall item,
    lookup c (Some medicineId) = Some item ->
    totalOfBatches stock < quantity item + delta ->
    reportsInsufficient c (totalOfBatches stock)
                        (updateQuantity c medicineId delta response).





(** [xs.reduce((sum, x) => sum + x, 0)]: binary64 sum, left to right. *)
Definition sumOf (xs : list float) : float :=
  fold_left (fun sum x => (sum + x)%float) xs 0%float.

(** The number a decimal amount of [cents] hundredths is read as: the
    binary64 value nearest to [cents / 100]. *)
Definition dec (cents : Z) : float := (num_of_Z cents / 100)%float.

(** A search result for medicine [id] priced at [cents] hundredths. *)
Definition priced (id : string) (cents : Z) : MedicineData :=
  {| md__id := Some id; md_id := Some id;
     md_name := id; md_genericName := None;
     md_manufacturer := None; md_category := "tablet";
     md_dosageForm := None; md_strength := None;
     md_barcode := None; md_prescriptionRequired := false;
     md_status := Some "active";
     hasStock := true;
     batches := Some [ {| batchId := Some (id ++ "-b1")%string;
                          batchNumber := "B1";
                          manufacturingDate := "2024-01-01";
                          expiryDate := "2026-01-01";
                          batch_quantity := 100;
                          sellingPrice := dec cents |} ];
     availableStock := 100 |}.

(** The cart after adding one unit of each of [lines], medicines given by
    identity and price in hundredths. *)
Definition cartOfUnits (lines : list (string * Z)) : Cart :=
  cart (run (map (fun l => EvAddToCart (priced (fst l) (snd l))) lines)).

(** Fixed-point pricing in hundredths, as the specification words it: the
    subtotal of one unit of each line. *)
Definition centsSubtotal (lines : list (string * Z)) : Z :=
  fold_left (fun sum l => sum + snd l) lines 0.

(** The subtotal computed for [lines] is the exact decimal one. *)
Definition decimalExact (lines : list (string * Z)) : Prop :=
  subtotal (calculateTotals (cartOfUnits lines) 0%float)
  = dec (centsSubtotal lines).

(** The run of [handleCheckout] reaches its success branch. *)
Definition checkoutSucceeded (st : State) (response : ApiResult CreatedSale)
  : bool :=
  match cart st, response with
  | _ :: _, Returned true (Some _) _ => true
  | _, _ => false
  end.

(** The ways a checkout fails: nothing to sell, the request throws (no
    connection, or a rejection by the server such as insufficient stock,
    which [request] turns into an [Error]), or it returns without success
    or without data. *)
Definition checkoutFails (st : State) (response : ApiResult CreatedSale) : Prop :=
  cart st = []
  \/ (exists message, response = Threw message)
  \/ (exists success data message,
         response = Returned success data message
         /\ (success = false \/ data = None)).

(** ** Terms of the further properties *)

(** The stock check of [updateQuantity] lets the quantity [newQuantity]
    through: the batches request did not succeed with data, or the total of
    the batches it lists is not below [newQuantity]. *)
Definition stockCheckPasses (response : ApiResult BatchesData)
           (newQuantity : Z) : bool :=
  match response with
  | Returned true (Some data) _ =>
      newQuantity <=? totalOfBatches (bd_batches data)
  | _ => true
  end.

(** A string of white space only. *)
Fixpoint allWhite (s : string) : bool :=
  match s with
  | String a s' => isWhiteSpace a && allWhite s'
  | EmptyString => true
  end.

(** The name of the one parameter a search for [query] is sent under. *)
Definition searchParameter (query : string) : string :=
  if barcodePattern (trim query) && Nat.leb 3 (String.length (trim query))
  then "barcode" else "q".

(** The tokens in memory are those in [localStorage]. *)
Definition inSync (ss : Session) : Prop :=
  accessToken ss = storedAccessToken ss
  /\ refreshToken ss = storedRefreshToken ss.

(** [request] goes through [refreshAccessToken] on this response. *)
Definition refreshes {T : Type} (ss : Session) (response : HttpResponse T)
  : bool :=
  (status response =? 401) && truthy (refreshToken ss).

(** The refresh answer that renews the tokens. *)
Definition renewal (world : Fetched (HttpResponse TokenPair))
  : option TokenPair :=
  match world with
  | Resolved response =>
      if ok response
      then match json response with
           | Some data => if ar_success data then ar_data data else None
           | None => None
           end
      else None
  | Rejected _ => None
  end.

(** Further sample data: a second medicine, and answers of the server. *)
Module Scenario.

Definition ibuprofen : MedicineData := priced "m2" 1250.

Definition session : Session :=
  {| baseURL := "http://localhost:5000/api";
     accessToken := Some "a1"; refreshToken := Some "r1";
     storedAccessToken := Some "a1"; storedRefreshToken := Some "r1" |}.

Definition jsonType : jsid := Some "application/json; charset=utf-8".

(** HTTP 400 with [{ success: false, message: "Insufficient stock for Paracetamol" }]. *)
Definition rejectedSale : HttpResponse CreatedSale :=
  {| status := 400; contentType := jsonType;
     json := Some (mkApiResponse false None
                     (Some "Insufficient stock for Paracetamol") None);
     text := "" |}.

(** HTTP 500 with an HTML page. *)
Definition serverError : HttpResponse BatchesData :=
  {| status := 500; contentType := Some "text/html";
     json := None; text := "Internal Server Error" |}.

(** HTTP 401, then a refresh that renews the tokens, then HTTP 200. *)
Definition unauthorized : HttpResponse CreatedSale :=
  {| status := 401; contentType := jsonType;
     json := Some (mkApiResponse false None (Some "Token expired") None);
     text := "" |}.

Definition renewed : HttpResponse TokenPair :=
  {| status := 200; contentType := jsonType;
     json := Some (mkApiResponse true (Some (mkTokenPair "a2" "r2")) None None);
     text := "" |}.

Definition refused : HttpResponse TokenPair :=
  {| status := 401; contentType := jsonType;
     json := Some (mkApiResponse false None (Some "Invalid refresh token") None);
     text := "" |}.

Definition saleCreated : HttpResponse CreatedSale :=
  {| status := 201; contentType := jsonType;
     json := Some (mkApiResponse true
                     (Some {| cs__id := Some "s1"; cs_id := None |}) None None);
     text := "" |}.

Definition idle : SearchView := {| sv_results := []; sv_loading := false |}.

End Scenario.

(** * Properties *)

(** Case analysis on the outcome of a call, along the test
    [response.success && response.data]. *)
Ltac by_outcome response :=
  destruct response as [?message | [ | ] [?data | ] ?message].

(** ** Facts about JavaScript values *)

Lemma jsid_eqb_eq (a b : jsid) : jsid_eqb a b = true <-> a = b.
Proof.
  destruct a as [x|], b as [y|]; simpl; split; intro H;
    try discriminate; try reflexivity.
  - apply String.eqb_eq in H. now subst.
  - inversion H. apply String.eqb_refl.
Qed.

Lemma jsid_eqb_refl (a : jsid) : jsid_eqb a a = true.
Proof. now apply jsid_eqb_eq. Qed.

Lemma jsid_eqb_neq (a b : jsid) : jsid_eqb a b = false <-> a <> b.
Proof.
  split.
  - intros H E. apply jsid_eqb_eq in E. congruence.
  - intros H. destruct (jsid_eqb a b) eqn:E; [|reflexivity].
    apply jsid_eqb_eq in E. contradiction.
Qed.

Lemma js_or_diag (a : jsid) : js_or a a = a.
Proof. unfold js_or. now destruct (truthy a). Qed.

Lemma to_int_proper (z : Z) : Z.to_int z <> Pos Nil /\ Z.to_int z <> Neg Nil.
Proof.
  destruct z as [|p|p]; simpl; split; try discriminate; intros [= H];
    now apply Unsigned.to_uint_nonnil in H.
Qed.

(** The text of a number determines the number. *)
Lemma show_inj (a b : Z) : show a = show b -> a = b.
Proof.
  unfold show. intros H.
  apply (f_equal NilZero.int_of_string) in H.
  destruct (to_int_proper a) as [Ha Ha'], (to_int_proper b) as [Hb Hb'].
  rewrite !NilZero.isi in H by assumption.
  injection H as H. apply (f_equal Z.of_int) in H.
  now rewrite !DecimalZ.of_to in H.
Qed.

Lemma insufficientMsg_inj (n m : Z) :
  insufficientMsg n = insufficientMsg m -> n = m.
Proof.
  unfold insufficientMsg. simpl. intros H. injection H as H.
  now apply show_inj.
Qed.

(** ** The cart invariant *)

Section CartLemmas.

Variable k : jsid.
Variable f : CartItem -> Z.

Lemma itemKey_bump (item : CartItem) : itemKey (bump k f item) = itemKey item.
Proof. unfold bump. now destruct (jsid_eqb (itemKey item) k). Qed.

Lemma keys_bump (c : Cart) : map itemKey (map (bump k f) c) = map itemKey c.
Proof.
  induction c as [|item c IH]; simpl; [reflexivity|].
  now rewrite itemKey_bump, IH.
Qed.

Lemma wellFormed_bump (c : Cart) :
  (forall item, In item c -> itemKey item = k -> 1 <= f item) ->
  Forall wellFormed c -> Forall wellFormed (map (bump k f) c).
Proof.
  intros Hf Hc. apply Forall_forall. intros x Hx.
  apply in_map_iff in Hx. destruct Hx as (item & <- & Hin).
  rewrite Forall_forall in Hc. specialize (Hc item Hin).
  unfold bump. destruct (jsid_eqb (itemKey item) k) eqn:E; [|exact Hc].
  apply jsid_eqb_eq in E. destruct Hc as [_ Hid].
  split; [exact (Hf item Hin E) | exact Hid].
Qed.

Lemma lookup_bump_other (c : Cart) (k' : jsid) :
  k' <> k -> lookup (map (bump k f) c) k' = lookup c k'.
Proof.
  intros Hk. unfold lookup.
  induction c as [|item c IH]; simpl; [reflexivity|].
  rewrite itemKey_bump.
  destruct (jsid_eqb (itemKey item) k') eqn:E.
  - unfold bump. destruct (jsid_eqb (itemKey item) k) eqn:E'; [|reflexivity].
    apply jsid_eqb_eq in E, E'. congruence.
  - exact IH.
Qed.

Lemma lookup_bump_same (c : Cart) (item : CartItem) :
  lookup c k = Some item ->
  lookup (map (bump k f) c) k = Some (setQuantity item (f item)).
Proof.
  unfold lookup.
  induction c as [|x c IH]; simpl; [discriminate|].
  rewrite itemKey_bump.
  destruct (jsid_eqb (itemKey x) k) eqn:E.
  - intros [= <-]. unfold bump. now rewrite E.
  - exact IH.
Qed.

End CartLemmas.

Lemma itemKey_wellFormed (item : CartItem) :
  wellFormed item -> itemKey item = med__id (medicine item).
Proof.
  intros [_ H]. unfold itemKey. rewrite <- H. apply js_or_diag.
Qed.

Lemma lookup_None (c : Cart) (k : jsid) :
  lookup c k = None <-> ~ In k (map itemKey c).
Proof.
  unfold lookup. induction c as [|x c IH]; simpl.
  - split; [intros _ []|reflexivity].
  - destruct (jsid_eqb (itemKey x) k) eqn:E.
    + apply jsid_eqb_eq in E. split; [discriminate|]. intros H. exfalso. auto.
    + apply jsid_eqb_neq in E. rewrite IH. split.
      * intros H [H'|H']; auto.
      * intros H H'. auto.
Qed.

(** On a cart whose items are well formed, [removeFromCart] drops exactly
    the items whose key is [medicineId]. *)
Lemma removeFromCart_filter (c : Cart) (medicineId : string) :
  Forall wellFormed c ->
  removeFromCart c medicineId
  = filter (fun item => negb (jsid_eqb (itemKey item) (Some medicineId))) c.
Proof.
  unfold removeFromCart. induction 1 as [|item c Hw _ IH]; simpl; [reflexivity|].
  rewrite IH, (itemKey_wellFormed _ Hw).
  destruct Hw as [_ <-].
  now destruct (jsid_eqb (med__id (medicine item)) (Some medicineId)).
Qed.

Lemma keys_filter_NoDup (p : CartItem -> bool) (c : Cart) :
  NoDup (map itemKey c) -> NoDup (map itemKey (filter p c)).
Proof.
  induction c as [|item c IH]; simpl; intros H; [exact H|].
  inversion H as [|? ? Hnot Hnd]; subst.
  destruct (p item); simpl; [|now apply IH].
  constructor; [|now apply IH].
  intros Hin. apply Hnot. apply in_map_iff in Hin.
  destruct Hin as (x & Hx & Hin). apply filter_In in Hin.
  apply in_map_iff. exists x. tauto.
Qed.

Lemma lookup_removed (c : Cart) (medicineId : string) :
  Forall wellFormed c ->
  lookup (removeFromCart c medicineId) (Some medicineId) = None.
Proof.
  intros Hw. rewrite (removeFromCart_filter _ _ Hw). apply lookup_None.
  intros Hin. apply in_map_iff in Hin. destruct Hin as (x & Hx & Hin).
  apply filter_In in Hin. destruct Hin as [_ Hp].
  rewrite Hx, jsid_eqb_refl in Hp. discriminate.
Qed.

Lemma lookup_remove_other (c : Cart) (medicineId : string) (k : jsid) :
  Forall wellFormed c -> k <> Some medicineId ->
  lookup (removeFromCart c medicineId) k = lookup c k.
Proof.
  intros Hw Hk. rewrite (removeFromCart_filter _ _ Hw). clear Hw. unfold lookup.
  induction c as [|item c IH]; simpl; [reflexivity|].
  destruct (jsid_eqb (itemKey item) (Some medicineId)) eqn:E; simpl.
  - destruct (jsid_eqb (itemKey item) k) eqn:E'; [|exact IH].
    apply jsid_eqb_eq in E, E'. congruence.
  - now rewrite IH.
Qed.

Lemma removeFromCart_inv (c : Cart) (medicineId : string) :
  cart_inv c -> cart_inv (removeFromCart c medicineId).
Proof.
  intros [Hw Hnd]. split.
  - apply Forall_forall. intros x Hx. apply filter_In in Hx.
    rewrite Forall_forall in Hw. apply Hw. tauto.
  - now apply keys_filter_NoDup.
Qed.

Lemma wellFormed_new (medicineData : MedicineData) (selectedBatch : Batch) :
  wellFormed {| medicine := medicineOf medicineData;
                inventory := inventoryOf (medicineOf medicineData) selectedBatch;
                quantity := 1;
                unitPrice := sellingPrice selectedBatch |}.
Proof. split; simpl; [lia|reflexivity]. Qed.

Lemma key_medicineOf (medicineData : MedicineData) :
  js_or (med__id (medicineOf medicineData)) (med_id (medicineOf medicineData))
  = keyOfData medicineData.
Proof. simpl. apply js_or_diag. Qed.

(** The handlers, with their searches and rewrites of the cart named. *)
Lemma addToCart_unfold (c : Cart) (medicineData : MedicineData) :
  addToCart c medicineData
  = match hasStock medicineData, batches medicineData with
    | true, Some (selectedBatch :: _) =>
        match lookup c (keyOfData medicineData) with
        | Some existingItem =>
            if quantity existingItem + 1 >? availableStock medicineData
            then (c, [toast_error (insufficientMsg (availableStock medicineData))])
            else (map (bump (keyOfData medicineData)
                            (fun item => quantity item + 1)) c, [])
        | None =>
            (c ++ [mkCartItem (medicineOf medicineData)
                              (inventoryOf (medicineOf medicineData) selectedBatch)
                              1 (sellingPrice selectedBatch)], [])
        end
    | _, _ => (c, [toast_error noStockMsg])
    end.
Proof.
  unfold addToCart.
  destruct (hasStock medicineData); [|reflexivity].
  destruct (batches medicineData) as [[|selectedBatch bs]|]; try reflexivity.
  rewrite key_medicineOf. reflexivity.
Qed.

Lemma updateQuantity_unfold (c : Cart) (medicineId : string) (delta : Z)
      (response : ApiResult BatchesData) :
  updateQuantity c medicineId delta response
  = match lookup c (Some medicineId) with
    | None => (c, [])
    | Some item =>
        let newQuantity := quantity item + delta in
        if newQuantity <=? 0 then (removeFromCart c medicineId, [])
        else
          let updated := map (bump (Some medicineId) (fun _ => newQuantity)) c in
          match response with
          | Returned true (Some data) _ =>
              if newQuantity >? totalOfBatches (bd_batches data)
              then (c, [toast_error
                          (insufficientMsg (totalOfBatches (bd_batches data)))])
              else (updated, [])
          | Returned _ _ _ => (updated, [])
          | Threw _ => (updated, [console_error "Error checking stock:"])
          end
    end.
Proof. reflexivity. Qed.

Lemma addToCart_inv (c : Cart) (medicineData : MedicineData) :
  cart_inv c -> cart_inv (fst (addToCart c medicineData)).
Proof.
  intros [Hw Hnd]. rewrite addToCart_unfold.
  destruct (hasStock medicineData); [|now split].
  destruct (batches medicineData) as [[|selectedBatch bs]|]; try now split.
  destruct (lookup c (keyOfData medicineData)) as [existingItem|] eqn:L.
  - destruct (quantity existingItem + 1 >? availableStock medicineData);
      [now split|]. simpl. split.
    + apply wellFormed_bump; [|exact Hw]. intros item Hin _.
      rewrite Forall_forall in Hw. destruct (Hw item Hin). lia.
    + now rewrite keys_bump.
  - simpl. split.
    + apply Forall_app. split; [exact Hw|].
      constructor; [apply wellFormed_new|constructor].
    + rewrite map_app. simpl. apply NoDup_app. repeat split.
      * exact Hnd.
      * constructor; [intros []|constructor].
      * intros a Ha [<-|[]]. apply lookup_None in L. apply L.
        unfold itemKey at 1 in Ha. simpl medicine in Ha.
        now rewrite key_medicineOf in Ha.
Qed.

Lemma updateQuantity_inv (c : Cart) (medicineId : string) (delta : Z)
      (response : ApiResult BatchesData) :
  cart_inv c -> cart_inv (fst (updateQuantity c medicineId delta response)).
Proof.
  intros Hc. rewrite updateQuantity_unfold.
  destruct (lookup c (Some medicineId)) as [item|]; [|exact Hc].
  cbv zeta.
  destruct (Z.leb_spec (quantity item + delta) 0) as [Hle|Hgt].
  - now apply removeFromCart_inv.
  - assert (Hup : cart_inv
                    (map (bump (Some medicineId)
                               (fun _ => quantity item + delta)) c)).
    { destruct Hc as [Hw Hnd]. split.
      - apply wellFormed_bump; [intros; lia|exact Hw].
      - now rewrite keys_bump. }
    by_outcome response; simpl; try exact Hup.
    destruct (quantity item + delta >? totalOfBatches (bd_batches data));
      [exact Hc|exact Hup].
Qed.

Lemma handleCheckout_cart (st : State) (response : ApiResult CreatedSale) :
  cart (after (handleCheckout st response)) = cart st
  \/ cart (after (handleCheckout st response)) = [].
Proof.
  unfold handleCheckout. destruct (cart st) eqn:E; [left; exact E|].
  by_outcome response; simpl; rewrite ?E; auto.
Qed.

Lemma cart_inv_nil : cart_inv [].
Proof. split; constructor. Qed.

Lemma step_inv (st : State) (e : Event) :
  cart_inv (cart st) -> cart_inv (cart (step st e)).
Proof.
  intros H. destruct e; simpl; try exact H.
  - now apply addToCart_inv.
  - now apply updateQuantity_inv.
  - now apply removeFromCart_inv.
  - destruct (handleCheckout_cart st response) as [-> | ->];
      [exact H|apply cart_inv_nil].
Qed.

Lemma reachable_inv (st : State) : reachable st -> cart_inv (cart st).
Proof.
  induction 1 as [|st e _ IH]; [apply cart_inv_nil|now apply step_inv].
Qed.

Lemma reachable_run (events : list Event) : reachable (run events).
Proof.
  unfold run. generalize initialState reach_init.
  induction events as [|e events IH]; intros st Hst; simpl; [exact Hst|].
  apply IH. now constructor.
Qed.

(** ** Cart updates *)

Lemma addToCart_existing (c : Cart) (medicineData : MedicineData)
      (existingItem : CartItem) :
  lookup c (keyOfData medicineData) = Some existingItem ->
  addToCart c medicineData
  = if stockAllows medicineData existingItem
    then (map (bump (keyOfData medicineData)
                    (fun item => quantity item + 1)) c, [])
    else if hasStock medicineData
              && match batches medicineData with
                 | Some (_ :: _) => true
                 | _ => false
                 end
         then (c, [toast_error (insufficientMsg (availableStock medicineData))])
         else (c, [toast_error noStockMsg]).
Proof.
  intros L. rewrite addToCart_unfold. unfold stockAllows.
  destruct (hasStock medicineData); [|reflexivity].
  destruct (batches medicineData) as [[|selectedBatch bs]|]; try reflexivity.
  rewrite L. simpl. rewrite Z.gtb_ltb, Z.ltb_antisym.
  now destruct (quantity existingItem + 1 <=? availableStock medicineData).
Qed.

Lemma updateQuantity_nonpositive (c : Cart) (medicineId : string) (delta : Z)
      (response : ApiResult BatchesData) (item : CartItem) :
  lookup c (Some medicineId) = Some item ->
  quantity item + delta <= 0 ->
  updateQuantity c medicineId delta response = (removeFromCart c medicineId, []).
Proof.
  intros L Hle. rewrite updateQuantity_unfold, L. cbv zeta.
  apply Z.leb_le in Hle. now rewrite Hle.
Qed.

(** C10, as amended.  In every state of the page each cart item has a
    quantity of at least 1 and no two items have the same medicine key.
    [addToCart] on a medicine that is already in the cart never adds an
    entry: when the medicine has stock and the raised quantity stays within
    [availableStock], it raises the quantity of that item by exactly 1 and
    touches no other item; otherwise it leaves the cart as it is.
    [updateQuantity] removes the item, and only that item, whenever the new
    quantity would be 0 or less. *)
Theorem cart_items_positive_and_unique (st : State) :
  reachable st ->
  (Forall (fun item => 1 <= quantity item) (cart st)
   /\ NoDup (map itemKey (cart st)))
  /\ (forall medicineData existingItem,
         lookup (cart st) (keyOfData medicineData) = Some existingItem ->
         let c' := fst (addToCart (cart st) medicineData) in
         map itemKey c' = map itemKey (cart st)
         /\ (stockAllows medicineData existingItem = true ->
             lookup c' (keyOfData medicineData)
             = Some (setQuantity existingItem (quantity existingItem + 1))
             /\ forall k, k <> keyOfData medicineData ->
                          lookup c' k = lookup (cart st) k)
         /\ (stockAllows medicineData existingItem = false -> c' = cart st))
  /\ (forall medicineId delta response item,
         lookup (cart st) (Some medicineId) = Some item ->
         quantity item + delta <= 0 ->
         let c' := fst (updateQuantity (cart st) medicineId delta response) in
         lookup c' (Some medicineId) = None
         /\ forall k, k <> Some medicineId -> lookup c' k = lookup (cart st) k).
Proof.
  intros Hr. destruct (reachable_inv _ Hr) as [Hw Hnd].
  split; [split|split].
  - eapply Forall_impl; [|exact Hw]. now intros item [H _].
  - exact Hnd.
  - intros medicineData existingItem L. cbv zeta.
    rewrite (addToCart_existing _ _ _ L).
    destruct (stockAllows medicineData existingItem); simpl.
    + split; [apply keys_bump|]. split; [|discriminate].
      intros _. split.
      * exact (lookup_bump_same _ (fun x => quantity x + 1) _ _ L).
      * intros k Hk. now apply lookup_bump_other.
    + split; [now destruct (_ && _)|]. split; [discriminate|].
      intros _. now destruct (_ && _).
  - intros medicineId delta response item L Hle. cbv zeta.
    rewrite (updateQuantity_nonpositive _ _ _ _ _ L Hle). simpl. split.
    + now apply lookup_removed.
    + intros k Hk. now apply lookup_remove_other.
Qed.

Lemma cart_items_positive_and_unique_witness :
  reachable Sample.twoInCart
  /\ (Forall (fun item => 1 <= quantity item) (cart Sample.twoInCart)
      /\ NoDup (map itemKey (cart Sample.twoInCart)))
  /\ map itemKey (fst (addToCart (cart Sample.twoInCart) Sample.paracetamol))
     = [Some "m1"]
  /\ option_map quantity
       (lookup (fst (addToCart (cart Sample.twoInCart) Sample.paracetamol))
               (Some "m1")) = Some 3
  /\ lookup (fst (updateQuantity (cart Sample.twoInCart) "m1" (-2)
                                 Sample.stockListed)) (Some "m1") = None.
Proof.
  pose proof (cart_items_positive_and_unique Sample.twoInCart
                (reachable_run _)) as (Hinv & Hadd & Hupd).
  split; [apply reachable_run|]. split; [exact Hinv|].
  destruct (Hadd Sample.paracetamol
              (setQuantity Sample.firstUnit 2)
              eq_refl) as (Hkeys & Hinc & _).
  split; [exact Hkeys|].
  split; [exact (f_equal (option_map quantity) (proj1 (Hinc eq_refl)))|].
  refine (proj1 (Hupd "m1" (-2) Sample.stockListed _ eq_refl _)).
  simpl. lia.
Defined.

(** C10 as stated fails where the stock check stops the increment: with one
    unit in the cart and one unit available, a second [addToCart] leaves the
    quantity at 1. *)
Lemma addToCart_at_stock_limit :
  reachable Sample.lastInCart
  /\ lookup (cart Sample.lastInCart) (Some "m1") = Some Sample.onlyUnit
  /\ addToCart (cart Sample.lastInCart) Sample.lastUnit
     = (cart Sample.lastInCart,
        [toast_error "Insufficient stock. Available: 1"])
  /\ ~ incrementsExisting (cart Sample.lastInCart) Sample.lastUnit.
Proof.
  split; [apply reachable_run|]. split; [reflexivity|].
  split; [reflexivity|]. intros H.
  specialize (H _ eq_refl). vm_compute in H. discriminate.
Qed.

(** ** Quantity zero *)

(** C5, as amended.  A quantity update that would bring the quantity of a
    cart item to 0 (or below) is not rejected: it removes the item from the
    cart and reports nothing, hence never an insufficient-stock error. *)
Theorem zero_quantity_removes_silently (st : State) (medicineId : string)
        (delta : Z) (response : ApiResult BatchesData) (item : CartItem) :
  reachable st ->
  lookup (cart st) (Some medicineId) = Some item ->
  quantity item + delta <= 0 ->
  snd (updateQuantity (cart st) medicineId delta response) = []
  /\ fst (updateQuantity (cart st) medicineId delta response)
     = removeFromCart (cart st) medicineId
  /\ lookup (fst (updateQuantity (cart st) medicineId delta response))
            (Some medicineId) = None.
Proof.
  intros Hr L Hle. rewrite (updateQuantity_nonpositive _ _ _ _ _ L Hle). simpl.
  repeat split. apply lookup_removed. exact (proj1 (reachable_inv _ Hr)).
Qed.

Lemma zero_quantity_removes_silently_witness :
  quantity Sample.firstUnit + -1 <= 0
  /\ snd (updateQuantity (cart Sample.oneInCart) "m1" (-1) Sample.serverDown) = []
  /\ fst (updateQuantity (cart Sample.oneInCart) "m1" (-1) Sample.serverDown)
     = removeFromCart (cart Sample.oneInCart) "m1"
  /\ lookup (fst (updateQuantity (cart Sample.oneInCart) "m1" (-1)
                                 Sample.serverDown)) (Some "m1") = None.
Proof.
  split; [simpl; lia|].
  apply (zero_quantity_removes_silently Sample.oneInCart "m1" (-1)
           Sample.serverDown
           Sample.firstUnit).
  - apply reachable_run.
  - reflexivity.
  - simpl; lia.
Defined.

(** C5 as stated fails: taking the only unit of an item away brings its
    quantity to 0, and the update goes through as a removal with no error. *)
Lemma zero_quantity_not_rejected :
  option_map quantity (lookup (cart Sample.oneInCart) (Some "m1")) = Some 1
  /\ updateQuantity (cart Sample.oneInCart) "m1" (-1) Sample.serverDown = ([], [])
  /\ ~ rejectedAsInvalid (cart Sample.oneInCart)
         (updateQuantity (cart Sample.oneInCart) "m1" (-1) Sample.serverDown).
Proof.
  split; [reflexivity|]. split; [reflexivity|].
  intros [H _]. vm_compute in H. discriminate.
Qed.

(** ** Insufficient stock *)

(** C4, as amended.  Where the total available quantity is known to the
    handler, a request above it is refused with the error
    "Insufficient stock. Available: N", N being that total, and the cart is
    left as it was: in [addToCart], for a medicine already in the cart whose
    search result has stock, N is its [availableStock]; in [updateQuantity],
    for a positive new quantity when the batches request succeeds, N is the
    sum of the quantities of the batches returned.  The message determines
    N. *)
Theorem insufficient_stock_refused (c : Cart) :
  (forall medicineData selectedBatch rest existingItem,
      hasStock medicineData = true ->
      batches medicineData = Some (selectedBatch :: rest) ->
      lookup c (keyOfData medicineData) = Some existingItem ->
      availableStock medicineData < quantity existingItem + 1 ->
      reportsInsufficient c (availableStock medicineData)
                          (addToCart c medicineData))
  /\ (forall medicineId delta data message item,
         lookup c (Some medicineId) = Some item ->
         0 < quantity item + delta ->
         totalOfBatches (bd_batches data) < quantity item + delta ->
         reportsInsufficient c (totalOfBatches (bd_batches data))
           (updateQuantity c medicineId delta
                           (Returned true (Some data) message)))
  /\ (forall n m, insufficientMsg n = insufficientMsg m -> n = m).
Proof.
  split; [|split; [|exact insufficientMsg_inj]].
  - intros medicineData selectedBatch rest existingItem Hs Hb L Hlt.
    unfold reportsInsufficient.
    rewrite (addToCart_existing _ _ _ L). unfold stockAllows.
    rewrite Hs, Hb. simpl.
    apply Z.leb_gt in Hlt. now rewrite Hlt.
  - intros medicineId delta data message item L Hpos Hlt.
    unfold reportsInsufficient. rewrite updateQuantity_unfold, L. cbv zeta.
    apply Z.leb_gt in Hpos. rewrite Hpos.
    rewrite Z.gtb_ltb. apply Z.ltb_lt in Hlt. now rewrite Hlt.
Qed.

(** C4 as stated fails when the stock request itself fails: with all 15
    units of the stock in the cart, one more click on [+] while the server
    cannot be reached raises the quantity to 16 and only logs the error. *)
Lemma overdraw_when_stock_request_fails :
  reachable Sample.allInCart
  /\ answersFor [Sample.batchB1; Sample.batchB2] Sample.serverDown
  /\ totalOfBatches [Sample.batchB1; Sample.batchB2] = 15
  /\ option_map quantity (lookup (cart Sample.allInCart) (Some "m1")) = Some 15
  /\ option_map quantity
       (lookup (fst (updateQuantity (cart Sample.allInCart) "m1" 1
                                    Sample.serverDown)) (Some "m1")) = Some 16
  /\ snd (updateQuantity (cart Sample.allInCart) "m1" 1 Sample.serverDown)
     = [console_error "Error checking stock:"]
  /\ ~ refusesOverdraw (cart Sample.allInCart) "m1" 1
                       [Sample.batchB1; Sample.batchB2] Sample.serverDown.
Proof.
  split; [apply reachable_run|].
  split; [exact I|]. repeat (split; [vm_compute; reflexivity|]).
  intros H.
  assert (L : lookup (cart Sample.allInCart) (Some "m1")
              = Some (setQuantity Sample.firstUnit 15))
    by (vm_compute; reflexivity).
  assert (Hlt : totalOfBatches [Sample.batchB1; Sample.batchB2] < 15 + 1)
    by reflexivity.
  specialize (H _ L Hlt). unfold reportsInsufficient in H.
  vm_compute in H. discriminate H.
Qed.

Lemma insufficient_stock_refused_witness :
  reportsInsufficient (cart Sample.lastInCart) 1
    (addToCart (cart Sample.lastInCart) Sample.lastUnit)
  /\ reportsInsufficient (cart Sample.allInCart) 15
       (updateQuantity (cart Sample.allInCart) "m1" 1 Sample.stockListed).
Proof.
  split.
  - apply (proj1 (insufficient_stock_refused
                    (cart Sample.lastInCart))
             Sample.lastUnit Sample.batchLast [] Sample.onlyUnit);
      reflexivity.
  - apply (proj1 (proj2 (insufficient_stock_refused (cart Sample.allInCart)))
             "m1" 1 (mkBatchesData [Sample.batchB1; Sample.batchB2]) None
             (setQuantity Sample.firstUnit 15));
      vm_compute; reflexivity.
Defined.

(** ** Sale lines and batches *)















(** ** Pricing *)

Lemma fold_left_sum_map {A : Type} (g : A -> float) (l : list A) (acc : float) :
  fold_left (fun sum x => (sum + g x)%float) l acc
  = fold_left (fun sum x => (sum + x)%float) (map g l) acc.
Proof.
  revert acc. induction l as [|x l IH]; intros acc; simpl; [reflexivity|].
  apply IH.
Qed.

Lemma subtotal_sumOf (c : Cart) (d : float) :
  subtotal (calculateTotals c d) = sumOf (map lineAmount c).
Proof. unfold sumOf. simpl. apply fold_left_sum_map. Qed.

(** Two units at 10.00 with a discount of 10 percent: 20.00, 2.00, 2.34 and
    20.34. *)
Example totals_of_two_units_at_ten :
  calculateTotals (cart Sample.twoInCart) 10%float
  = {| subtotal := 20%float; discount := 2%float;
       vatAmount := dec 234; total := dec 2034 |}.
Proof. vm_compute. reflexivity. Qed.

(** C2.  For every cart and discount percentage, [calculateTotals] returns
    the subtotal as the sum over the items of unit price times quantity, the
    discount as subtotal times percentage over 100, the VAT as 13 over 100
    of subtotal minus discount, and the total as subtotal minus discount
    plus VAT; the subtotals of the lines submitted with the sale add up to
    exactly that subtotal, which is the one submitted.  Sums and products
    are those of JavaScript numbers, taken in cart order. *)
Theorem totals_follow_pricing_rules (st : State) :
  let t := calculateTotals (cart st) (discountPercentage st) in
  let sd := saleDataOf st in
  subtotal t
  = sumOf (map (fun item => unitPrice item * num_of_Z (quantity item))%float
               (cart st))
  /\ discount t = (subtotal t * discountPercentage st / 100)%float
  /\ vatAmount t = ((subtotal t - discount t) * 13 / 100)%float
  /\ total t = (subtotal t - discount t + vatAmount t)%float
  /\ Forall2 (fun item line =>
                si_subtotal line
                = (unitPrice item * num_of_Z (quantity item))%float)
             (cart st) (sd_items sd)
  /\ sumOf (map si_subtotal (sd_items sd)) = subtotal t
  /\ sd_subtotal sd = subtotal t
  /\ sd_discount sd = discount t
  /\ sd_vatAmount sd = vatAmount t
  /\ sd_totalAmount sd = total t.
Proof.
  intros t sd. split; [apply subtotal_sumOf|].
  repeat (split; [reflexivity|]).
  split.
  - subst sd. simpl. induction (cart st) as [|item c IH]; simpl;
      constructor; [reflexivity|exact IH].
  - split; [|repeat split].
    subst sd t. simpl sd_items. rewrite map_map.
    symmetry. apply subtotal_sumOf.
Qed.

(** C7, as amended.  The pricing computation is carried out on JavaScript
    numbers, that is in binary64 floating point, and [calculateTotals]
    applies no rounding.  The subtotal starts from 0 and is extended, item
    by item in cart order, by one binary64 product and one binary64
    addition; the discount is exactly the binary64 result of subtotal times
    percentage over 100, the VAT that of subtotal minus discount, times 13,
    over 100, and the total that of subtotal minus discount, plus VAT.  The
    amounts submitted with the sale (subtotal, discount, VAT, total, amount
    paid and every line subtotal) are the values so computed, as they
    are. *)
Theorem pricing_is_unrounded_binary64 (st : State) :
  (forall d, subtotal (calculateTotals [] d) = 0%float)
  /\ (forall c item d,
      subtotal (calculateTotals (c ++ [item]) d)
      = (subtotal (calculateTotals c d)
         + unitPrice item * num_of_Z (quantity item))%float)
  /\ (forall c d,
      discount (calculateTotals c d)
      = (subtotal (calculateTotals c d) * d / 100)%float)
  /\ (forall c d,
      vatAmount (calculateTotals c d)
      = ((subtotal (calculateTotals c d) - discount (calculateTotals c d))
         * 13 / 100)%float)
  /\ (forall c d,
      total (calculateTotals c d)
      = (subtotal (calculateTotals c d) - discount (calculateTotals c d)
         + vatAmount (calculateTotals c d))%float)
  /\ sd_subtotal (saleDataOf st)
     = subtotal (calculateTotals (cart st) (discountPercentage st))
  /\ sd_discount (saleDataOf st)
     = discount (calculateTotals (cart st) (discountPercentage st))
  /\ sd_vatAmount (saleDataOf st)
     = vatAmount (calculateTotals (cart st) (discountPercentage st))
  /\ sd_totalAmount (saleDataOf st)
     = total (calculateTotals (cart st) (discountPercentage st))
  /\ sd_amountPaid (saleDataOf st)
     = total (calculateTotals (cart st) (discountPercentage st))
  /\ map si_subtotal (sd_items (saleDataOf st))
     = map (fun item => (unitPrice item * num_of_Z (quantity item))%float)
           (cart st).
Proof.
  split; [reflexivity|]. split.
  - intros c item d. simpl. now rewrite fold_left_app.
  - repeat split. simpl. now rewrite map_map.
Qed.

Lemma float_neq (x y : float) : PrimFloat.eqb x y = false -> PrimFloat.eqb y y = true -> x <> y.
Proof. intros Hxy Hyy E. rewrite E, Hyy in Hxy. discriminate. Qed.

(** C7 as stated fails: one unit at 0.10 and one unit at 0.20 give the
    subtotal 0.30000000000000004 (in binary, [0x1.3333333333334p-2]), not
    the number 0.30 of decimal arithmetic ([0x1.3333333333333p-2]). *)
Lemma subtotal_of_010_and_020_is_not_030 :
  centsSubtotal [("m1", 10); ("m2", 20)] = 30
  /\ map unitPrice (cartOfUnits [("m1", 10); ("m2", 20)]) = [dec 10; dec 20]
  /\ subtotal (calculateTotals (cartOfUnits [("m1", 10); ("m2", 20)]) 0%float)
     = 0x1.3333333333334p-2%float
  /\ dec 30 = 0x1.3333333333333p-2%float
  /\ ~ decimalExact [("m1", 10); ("m2", 20)].
Proof.
  repeat (split; [vm_compute; reflexivity|]).
  apply float_neq; vm_compute; reflexivity.
Qed.

(** ** Checkout *)

Lemma checkoutSucceeded_false (st : State) (response : ApiResult CreatedSale) :
  checkoutFails st response <-> checkoutSucceeded st response = false.
Proof.
  unfold checkoutFails, checkoutSucceeded. split.
  - intros [H|[(m & ->)|(s & d & m & -> & [-> | ->])]].
    + now rewrite H.
    + now destruct (cart st).
    + now destruct (cart st).
    + now destruct (cart st), s.
  - destruct (cart st) as [|item c]; [now left|].
    by_outcome response; try discriminate; intros _; right.
    + left. eexists. reflexivity.
    + right. do 3 eexists. split; [reflexivity|now right].
    + right. do 3 eexists. split; [reflexivity|now left].
    + right. do 3 eexists. split; [reflexivity|now left].
Qed.

Lemma handleCheckout_failed (st : State) (response : ApiResult CreatedSale) :
  checkoutSucceeded st response = false ->
  after (handleCheckout st response) = st
  \/ after (handleCheckout st response) = setIsSubmitting st false.
Proof.
  unfold checkoutSucceeded, handleCheckout.
  destruct (cart st) as [|item c]; [now left|].
  by_outcome response; try discriminate; now right.
Qed.

(** C8.  A checkout that fails (empty cart, a thrown error such as a
    rejection for insufficient stock, or a response without success or
    data) leaves the cart, the customer name, the customer mobile and the
    discount percentage as they were, and shows an error; these four are
    reset, to the empty cart, empty strings and 0, exactly when the checkout
    succeeds. *)
Theorem failed_checkout_keeps_state (st : State)
        (response : ApiResult CreatedSale) :
  (checkoutFails st response ->
   cart (after (handleCheckout st response)) = cart st
   /\ customerName (after (handleCheckout st response)) = customerName st
   /\ customerMobile (after (handleCheckout st response)) = customerMobile st
   /\ discountPercentage (after (handleCheckout st response))
      = discountPercentage st
   /\ exists msg, In (toast_error msg) (notices (handleCheckout st response)))
  /\ (~ checkoutFails st response ->
      cart (after (handleCheckout st response)) = []
      /\ customerName (after (handleCheckout st response)) = ""
      /\ customerMobile (after (handleCheckout st response)) = ""
      /\ discountPercentage (after (handleCheckout st response)) = 0%float
      /\ notices (handleCheckout st response)
         = [toast_success "Sale completed successfully!"]).
Proof.
  split.
  - intros Hf. apply checkoutSucceeded_false in Hf.
    split; [|split; [|split; [|split]]];
      try (destruct (handleCheckout_failed st response Hf) as [-> | ->];
           reflexivity).
    unfold checkoutSucceeded in Hf. unfold handleCheckout.
    destruct (cart st) as [|item c]; [simpl; eauto|].
    by_outcome response; try discriminate;
      simpl; eauto.
  - intros Hs.
    assert (E : checkoutSucceeded st response = true).
    { destruct (checkoutSucceeded st response) eqn:E; [reflexivity|].
      apply checkoutSucceeded_false in E. contradiction. }
    unfold checkoutSucceeded in E. unfold handleCheckout.
    destruct (cart st) as [|item c]; [discriminate|].
    by_outcome response; try discriminate.
    now repeat split.
Qed.

Lemma failed_checkout_keeps_state_witness :
  checkoutFails Sample.twoInCart Sample.serverDown
  /\ cart (after (handleCheckout Sample.twoInCart Sample.serverDown))
     = cart Sample.twoInCart
  /\ ~ checkoutFails Sample.twoInCart Sample.created
  /\ cart (after (handleCheckout Sample.twoInCart Sample.created)) = [].
Proof.
  assert (Hf : checkoutFails Sample.twoInCart Sample.serverDown).
  { right. left. eexists. reflexivity. }
  assert (Hs : ~ checkoutFails Sample.twoInCart Sample.created).
  { intros H. apply checkoutSucceeded_false in H. discriminate H. }
  split; [exact Hf|].
  split; [exact (proj1 (proj1 (failed_checkout_keeps_state
                                 Sample.twoInCart Sample.serverDown) Hf))|].
  split; [exact Hs|].
  exact (proj1 (proj2 (failed_checkout_keeps_state
                         Sample.twoInCart Sample.created) Hs)).
Defined.

(** C9.  Whatever the payment method, [credit] included, every checkout
    that reaches the server is submitted as [paid], with the amount paid
    equal to the computed total and the amount due equal to 0; a checkout
    with a non-empty cart always reaches the server. *)
Theorem every_checkout_submitted_as_paid (st : State)
        (response : ApiResult CreatedSale) :
  (cart st <> [] -> exists sd, submitted (handleCheckout st response) = Some sd)
  /\ (forall sd,
         submitted (handleCheckout st response) = Some sd ->
         sd_paymentMethod sd = paymentMethod st
         /\ sd_paymentStatus sd = paid
         /\ sd_amountPaid sd
            = total (calculateTotals (cart st) (discountPercentage st))
         /\ sd_amountPaid sd = sd_totalAmount sd
         /\ sd_amountDue sd = 0%float).
Proof.
  unfold handleCheckout. destruct (cart st) as [|item c] eqn:E.
  - split; [congruence|]. intros sd H. discriminate.
  - split.
    + intros _. by_outcome response; simpl; eauto.
    + intros sd H.
      assert (Hsd : sd = saleDataOf st).
      { by_outcome response; simpl in H; congruence. }
      subst sd. simpl. rewrite E. now repeat split.
Qed.

Lemma every_checkout_submitted_as_paid_witness :
  cart Sample.onCredit <> []
  /\ submitted (handleCheckout Sample.onCredit Sample.created)
     = Some (saleDataOf Sample.onCredit)
  /\ sd_paymentMethod (saleDataOf Sample.onCredit) = credit
  /\ sd_paymentStatus (saleDataOf Sample.onCredit) = paid
  /\ sd_amountPaid (saleDataOf Sample.onCredit)
     = sd_totalAmount (saleDataOf Sample.onCredit)
  /\ sd_amountDue (saleDataOf Sample.onCredit) = 0%float.
Proof.
  assert (Hc : cart Sample.onCredit <> []) by discriminate.
  assert (Hs : submitted (handleCheckout Sample.onCredit Sample.created)
               = Some (saleDataOf Sample.onCredit)) by reflexivity.
  destruct (proj2 (every_checkout_submitted_as_paid
                     Sample.onCredit Sample.created)
              (saleDataOf Sample.onCredit) Hs)
    as (Hm & Hp & _ & Ht & Hd).
  repeat split; assumption.
Defined.

(** C6 at a discount of 150 percent.  The discount input stores the number
    as typed, whether above 100 or below 0, and [handleCheckout] checks
    nothing but the cart: one unit at 10.00 with a discount of 150 is sent
    to the server, with a discount of 15.00 and a total of -5.65, and the
    sale completes. *)
Theorem checkout_accepts_discount_150 :
  discountOfInput 150%float = 150%float
  /\ discountOfInput (-20)%float = (-20)%float
  /\ discountPercentage Sample.discounted150 = 150%float
  /\ submitted (handleCheckout Sample.discounted150 Sample.created)
     = Some (saleDataOf Sample.discounted150)
  /\ sd_discountPercentage (saleDataOf Sample.discounted150) = 150%float
  /\ sd_discount (saleDataOf Sample.discounted150) = 15%float
  /\ sd_totalAmount (saleDataOf Sample.discounted150) = dec (-565)
  /\ notices (handleCheckout Sample.discounted150 Sample.created)
     = [toast_success "Sale completed successfully!"].
Proof. repeat split; vm_compute; reflexivity. Qed.

(** * Further properties of the page *)

(** ** Removing and re-adding *)

Lemma lookup_unique (c : Cart) (k : jsid) (item x : CartItem) :
  NoDup (map itemKey c) ->
  lookup c k = Some item -> In x c -> itemKey x = k -> x = item.
Proof.
  unfold lookup. induction c as [|y c IH]; simpl; intros Hnd L Hin Hk; [easy|].
  inversion Hnd as [|? ? Hnot Hnd']; subst.
  destruct (jsid_eqb (itemKey y) (itemKey x)) eqn:E.
  - injection L as <-. destruct Hin as [->|Hin]; [reflexivity|].
    apply jsid_eqb_eq in E. exfalso. apply Hnot. rewrite E.
    now apply in_map.
  - apply jsid_eqb_neq in E. destruct Hin as [->|Hin]; [congruence|].
    now apply IH.
Qed.

Lemma removeFromCart_missing (c : Cart) (medicineId : string) :
  Forall wellFormed c ->
  lookup c (Some medicineId) = None -> removeFromCart c medicineId = c.
Proof.
  intros Hw L. rewrite (removeFromCart_filter _ _ Hw). clear Hw.
  unfold lookup in L. induction c as [|x c IH]; simpl in *; [reflexivity|].
  destruct (jsid_eqb (itemKey x) (Some medicineId)); [discriminate|].
  simpl. now rewrite IH.
Qed.

Lemma removeFromCart_app (c c' : Cart) (medicineId : string) :
  removeFromCart (c ++ c') medicineId
  = removeFromCart c medicineId ++ removeFromCart c' medicineId.
Proof. unfold removeFromCart. apply filter_app. Qed.

Lemma cart_inv_tail (x : CartItem) (c : Cart) :
  cart_inv (x :: c) -> wellFormed x /\ cart_inv c /\ ~ In (itemKey x) (map itemKey c).
Proof.
  intros [Hw Hnd]. inversion Hw as [|? ? Hx Hc]; subst.
  inversion Hnd as [|? ? Hnot Hnd']; subst.
  split; [exact Hx|]. split; [split; assumption|exact Hnot].
Qed.

Lemma removeFromCart_split (c : Cart) (medicineId : string) (item : CartItem) :
  cart_inv c ->
  lookup c (Some medicineId) = Some item ->
  exists before behind,
    c = before ++ item :: behind
    /\ removeFromCart c medicineId = before ++ behind.
Proof.
  induction c as [|x c IH]; intros Hinv L; [discriminate|].
  destruct (cart_inv_tail _ _ Hinv) as (Hx & Hc & Hnot).
  unfold lookup in L. simpl in L.
  destruct (jsid_eqb (itemKey x) (Some medicineId)) eqn:E.
  - injection L as <-. exists [], c. split; [reflexivity|].
    apply jsid_eqb_eq in E. rewrite E in Hnot. apply lookup_None in Hnot.
    change (x :: c) with ([x] ++ c). rewrite removeFromCart_app.
    rewrite (removeFromCart_missing c _ (proj1 Hc) Hnot).
    unfold removeFromCart. simpl.
    rewrite <- (itemKey_wellFormed _ Hx), E, jsid_eqb_refl. reflexivity.
  - destruct (IH Hc L) as (before & behind & -> & Hr).
    exists (x :: before), behind. split; [reflexivity|].
    change (x :: before ++ item :: behind)
      with ([x] ++ (before ++ item :: behind)).
    rewrite removeFromCart_app, Hr. unfold removeFromCart at 1. simpl.
    rewrite <- (itemKey_wellFormed _ Hx), E.
    destruct Hx as [_ <-]. rewrite <- (itemKey_wellFormed x), E;
      [reflexivity|].
    apply (proj1 (cart_inv_tail _ _ Hinv)).
Qed.

(** X1.  In every state of the page, [removeFromCart] of a medicine that is
    not in the cart leaves the cart as it is, and [removeFromCart] of a
    medicine that is in the cart takes out its one item and nothing else,
    keeping the order of the others. *)
Theorem removeFromCart_takes_one_item (st : State) (medicineId : string) :
  reachable st ->
  (lookup (cart st) (Some medicineId) = None ->
   removeFromCart (cart st) medicineId = cart st)
  /\ (forall item,
         lookup (cart st) (Some medicineId) = Some item ->
         exists before behind,
           cart st = before ++ item :: behind
           /\ removeFromCart (cart st) medicineId = before ++ behind).
Proof.
  intros Hr. pose proof (reachable_inv _ Hr) as Hinv. split.
  - apply removeFromCart_missing. exact (proj1 Hinv).
  - intros item L. now apply removeFromCart_split.
Qed.

Lemma removeFromCart_takes_one_item_witness :
  removeFromCart (cart Sample.twoInCart) "m9" = cart Sample.twoInCart
  /\ exists before behind,
       cart Sample.twoInCart
       = before ++ setQuantity Sample.firstUnit 2 :: behind
       /\ removeFromCart (cart Sample.twoInCart) "m1" = before ++ behind.
Proof.
  destruct (removeFromCart_takes_one_item Sample.twoInCart "m9"
              (reachable_run _)) as [Hmiss _].
  destruct (removeFromCart_takes_one_item Sample.twoInCart "m1"
              (reachable_run _)) as [_ Hin].
  split; [exact (Hmiss eq_refl)|].
  exact (Hin (setQuantity Sample.firstUnit 2) eq_refl).
Defined.

Lemma lookup_app_None (c extra : Cart) (k : jsid) :
  lookup c k = None -> lookup (c ++ extra) k = lookup extra k.
Proof.
  unfold lookup. induction c as [|x c IH]; simpl; [reflexivity|].
  destruct (jsid_eqb (itemKey x) k); [discriminate|exact IH].
Qed.

(** X2.  Adding a medicine that is not in the cart and removing it again
    gives back the cart: in every state of the page, for a search result
    with stock, a first batch, the identity [medicineId] and no item in the
    cart, [removeFromCart] after [addToCart] is the cart before. *)
Theorem add_then_remove_restores_cart (st : State)
        (medicineData : MedicineData) (medicineId : string)
        (selectedBatch : Batch) (rest : list Batch) :
  reachable st ->
  hasStock medicineData = true ->
  batches medicineData = Some (selectedBatch :: rest) ->
  keyOfData medicineData = Some medicineId ->
  lookup (cart st) (Some medicineId) = None ->
  removeFromCart (fst (addToCart (cart st) medicineData)) medicineId = cart st.
Proof.
  intros Hr Hs Hb Hk L. pose proof (reachable_inv _ Hr) as [Hw _].
  rewrite addToCart_unfold, Hs, Hb, Hk, L. simpl fst.
  rewrite removeFromCart_app, (removeFromCart_missing _ _ Hw L).
  unfold removeFromCart. simpl.
  change (js_or (md__id medicineData) (md_id medicineData))
    with (keyOfData medicineData).
  rewrite Hk, jsid_eqb_refl. simpl. apply app_nil_r.
Qed.

Lemma add_then_remove_restores_cart_witness :
  removeFromCart (fst (addToCart (cart Sample.twoInCart) Scenario.ibuprofen))
                 "m2"
  = cart Sample.twoInCart.
Proof.
  apply (add_then_remove_restores_cart Sample.twoInCart Scenario.ibuprofen
           "m2"
           {| batchId := Some "m2-b1"; batchNumber := "B1";
              manufacturingDate := "2024-01-01"; expiryDate := "2026-01-01";
              batch_quantity := 100; sellingPrice := dec 1250 |} []).
  - apply reachable_run.
  - reflexivity.
  - reflexivity.
  - reflexivity.
  - reflexivity.
Defined.

(** ** Changing a quantity *)

Lemma setQuantity_same (item : CartItem) :
  setQuantity item (quantity item) = item.
Proof. now destruct item. Qed.

Lemma bump_back (k : jsid) (f : CartItem -> Z) (q : Z) (c : Cart) :
  (forall x, In x c -> itemKey x = k -> quantity x = q) ->
  map (bump k (fun _ => q)) (map (bump k f) c) = c.
Proof.
  induction c as [|x c IH]; intros H; simpl; [reflexivity|].
  rewrite IH by (intros y Hy; apply H; now right). f_equal.
  unfold bump at 2. destruct (jsid_eqb (itemKey x) k) eqn:E.
  - unfold bump. simpl. change (itemKey (setQuantity x (f x))) with (itemKey x).
    rewrite E. unfold setQuantity. simpl.
    apply jsid_eqb_eq in E. rewrite <- (H x (or_introl eq_refl) E).
    now destruct x.
  - unfold bump. now rewrite E.
Qed.

Lemma updateQuantity_passed (c : Cart) (medicineId : string) (delta : Z)
      (response : ApiResult BatchesData) (item : CartItem) :
  lookup c (Some medicineId) = Some item ->
  0 < quantity item + delta ->
  stockCheckPasses response (quantity item + delta) = true ->
  fst (updateQuantity c medicineId delta response)
  = map (bump (Some medicineId) (fun _ => quantity item + delta)) c
  /\ forall msg, ~ In (toast_error msg)
                     (snd (updateQuantity c medicineId delta response)).
Proof.
  intros L Hpos Hp. rewrite updateQuantity_unfold, L. cbv zeta.
  apply Z.leb_gt in Hpos. rewrite Hpos.
  by_outcome response; simpl in *;
    try (split; [reflexivity|]; intros msg [H|[]]; discriminate);
    try (split; [reflexivity|]; intros msg []).
  rewrite Z.gtb_ltb, Z.ltb_antisym, Hp. simpl.
  split; [reflexivity|]. intros msg [].
Qed.

(** X3.  In every state of the page, a quantity change that leaves the
    quantity positive and passes the stock check (the batches request did
    not succeed with data, or the batches it lists hold at least the new
    quantity) sets the quantity of that item to the old quantity plus
    [delta], shows no error, and leaves the other items, the order and the
    keys of the cart as they were. *)
Theorem updateQuantity_sets_quantity (st : State) (medicineId : string)
        (delta : Z) (response : ApiResult BatchesData) (item : CartItem) :
  reachable st ->
  lookup (cart st) (Some medicineId) = Some item ->
  0 < quantity item + delta ->
  stockCheckPasses response (quantity item + delta) = true ->
  lookup (fst (updateQuantity (cart st) medicineId delta response))
         (Some medicineId)
  = Some (setQuantity item (quantity item + delta))
  /\ (forall k, k <> Some medicineId ->
                lookup (fst (updateQuantity (cart st) medicineId delta response)) k
                = lookup (cart st) k)
  /\ map itemKey (fst (updateQuantity (cart st) medicineId delta response))
     = map itemKey (cart st)
  /\ (forall msg, ~ In (toast_error msg)
                      (snd (updateQuantity (cart st) medicineId delta response))).
Proof.
  intros _ L Hpos Hp.
  destruct (updateQuantity_passed _ _ _ _ _ L Hpos Hp) as [-> Hn].
  split; [|split; [|split]].
  - exact (lookup_bump_same _ (fun _ => quantity item + delta) _ _ L).
  - intros k Hk. now apply lookup_bump_other.
  - apply keys_bump.
  - exact Hn.
Qed.

Lemma updateQuantity_sets_quantity_witness :
  lookup (fst (updateQuantity (cart Sample.twoInCart) "m1" 3 Sample.stockListed))
         (Some "m1")
  = Some (setQuantity (setQuantity Sample.firstUnit 2) 5)
  /\ map itemKey
       (fst (updateQuantity (cart Sample.twoInCart) "m1" 3 Sample.stockListed))
     = [Some "m1"].
Proof.
  destruct (updateQuantity_sets_quantity Sample.twoInCart "m1" 3
              Sample.stockListed (setQuantity Sample.firstUnit 2)
              (reachable_run _) eq_refl eq_refl eq_refl)
    as (Hq & _ & Hk & _).
  split; [exact Hq|exact Hk].
Defined.

(** X4.  One click on [+] followed by one click on [-] gives back the cart:
    in every state of the page, when both stock checks pass,
    [updateQuantity] by [-1] after [updateQuantity] by [1] on the same
    medicine is the cart before. *)
Theorem plus_then_minus_restores_cart (st : State) (medicineId : string)
        (up down : ApiResult BatchesData) (item : CartItem) :
  reachable st ->
  lookup (cart st) (Some medicineId) = Some item ->
  stockCheckPasses up (quantity item + 1) = true ->
  stockCheckPasses down (quantity item) = true ->
  fst (updateQuantity (fst (updateQuantity (cart st) medicineId 1 up))
                      medicineId (-1) down)
  = cart st.
Proof.
  intros Hr L Hup Hdown. destruct (reachable_inv _ Hr) as [Hw Hnd].
  assert (Hq : 1 <= quantity item).
  { rewrite Forall_forall in Hw. apply Hw. now apply find_some in L. }
  destruct (updateQuantity_passed _ _ 1 up _ L ltac:(lia) Hup) as [-> _].
  pose proof (lookup_bump_same (Some medicineId)
                (fun _ => quantity item + 1) _ _ L) as L'.
  destruct (updateQuantity_passed _ _ (-1) down _ L') as [-> _].
  - simpl. lia.
  - simpl. now replace (quantity item + 1 + -1) with (quantity item) by lia.
  - simpl. replace (quantity item + 1 + -1) with (quantity item) by lia.
    apply bump_back. intros x Hx Hk.
    now rewrite (lookup_unique _ _ _ x Hnd L Hx Hk).
Qed.

Lemma plus_then_minus_restores_cart_witness :
  fst (updateQuantity
         (fst (updateQuantity (cart Sample.twoInCart) "m1" 1 Sample.stockListed))
         "m1" (-1) Sample.serverDown)
  = cart Sample.twoInCart.
Proof.
  apply (plus_then_minus_restores_cart Sample.twoInCart "m1"
           Sample.stockListed Sample.serverDown
           (setQuantity Sample.firstUnit 2)).
  - apply reachable_run.
  - reflexivity.
  - reflexivity.
  - reflexivity.
Defined.

(** X5.  A click on an enabled [Add] button never brings the quantity of
    the medicine above the available stock of the search result: in every
    state of the page, when the button is enabled, [addToCart] either leaves
    the cart as it is or leaves the medicine in it with a quantity between 1
    and [availableStock]. *)
Theorem enabled_add_stays_within_stock (st : State)
        (medicineData : MedicineData) :
  reachable st ->
  addEnabled medicineData = true ->
  fst (addToCart (cart st) medicineData) = cart st
  \/ exists item,
       lookup (fst (addToCart (cart st) medicineData)) (keyOfData medicineData)
       = Some item
       /\ 1 <= quantity item <= availableStock medicineData.
Proof.
  intros Hr He. destruct (reachable_inv _ Hr) as [Hw _].
  unfold addEnabled in He. apply andb_prop in He. destruct He as [Hs Ha].
  apply Z.gtb_lt in Ha.
  rewrite addToCart_unfold, Hs.
  destruct (batches medicineData) as [[|selectedBatch rest]|];
    try (now left).
  destruct (lookup (cart st) (keyOfData medicineData))
    as [existingItem|] eqn:L.
  - destruct (Z.gtb_spec (quantity existingItem + 1)
                         (availableStock medicineData)) as [Hgt|Hle];
      [now left|].
    right. exists (setQuantity existingItem (quantity existingItem + 1)).
    simpl fst. split.
    + exact (lookup_bump_same _ (fun x => quantity x + 1) _ _ L).
    + assert (Hq : 1 <= quantity existingItem).
      { rewrite Forall_forall in Hw. apply Hw. now apply find_some in L. }
      simpl. lia.
  - right. eexists. simpl fst. split.
    + rewrite (lookup_app_None _ _ _ L). unfold lookup. simpl.
      unfold itemKey. simpl. rewrite js_or_diag.
      change (js_or (md__id medicineData) (md_id medicineData))
        with (keyOfData medicineData).
      rewrite jsid_eqb_refl. reflexivity.
    + simpl. lia.
Qed.

Lemma enabled_add_stays_within_stock_witness :
  fst (addToCart (cart Sample.lastInCart) Sample.lastUnit)
  = cart Sample.lastInCart
  \/ exists item,
       lookup (fst (addToCart (cart Sample.lastInCart) Sample.lastUnit))
              (keyOfData Sample.lastUnit) = Some item
       /\ 1 <= quantity item <= availableStock Sample.lastUnit.
Proof.
  apply (enabled_add_stays_within_stock Sample.lastInCart Sample.lastUnit).
  - apply reachable_run.
  - reflexivity.
Defined.

(** ** After the checkout *)

(** X6.  A completed sale cannot be sent a second time: after a checkout
    that succeeded the [Complete Sale] button is disabled, and a further run
    of [handleCheckout] sends nothing, shows "Cart is empty" and leaves the
    state as it is, whatever the server would answer. *)
Theorem completed_sale_not_resubmitted (st : State)
        (response again : ApiResult CreatedSale) :
  checkoutSucceeded st response = true ->
  checkoutEnabled (after (handleCheckout st response)) = false
  /\ submitted (handleCheckout (after (handleCheckout st response)) again) = None
  /\ notices (handleCheckout (after (handleCheckout st response)) again)
     = [toast_error "Cart is empty"]
  /\ after (handleCheckout (after (handleCheckout st response)) again)
     = after (handleCheckout st response).
Proof.
  unfold checkoutSucceeded, handleCheckout.
  destruct (cart st) as [|item c]; [discriminate|].
  by_outcome response; try discriminate. intros _. now repeat split.
Qed.

Lemma completed_sale_not_resubmitted_witness :
  submitted (handleCheckout
               (after (handleCheckout Sample.twoInCart Sample.created))
               Sample.created) = None.
Proof.
  exact (proj1 (proj2 (completed_sale_not_resubmitted
                         Sample.twoInCart Sample.created Sample.created
                         eq_refl))).
Defined.

Lemma printInvoice_lastInvoiceId (st st' : State) :
  lastInvoiceId st' = lastInvoiceId st -> printInvoice st' = printInvoice st.
Proof. unfold printInvoice. now intros ->. Qed.

(** X7.  [printInvoice] follows the last completed sale.  After a checkout
    that fails it does what it did before.  After a checkout that succeeds
    it opens [/invoice/<id>] in a new window, where [<id>] is the [_id] of
    the created sale or else its [id]; when the created sale carries neither
    it shows "No invoice to print", the invoice of an earlier sale being
    forgotten.  Whenever [lastInvoiceId] is set, and so whenever the
    [Print Invoice] button is rendered, [printInvoice] opens a window; the
    button is rendered only beside a cart that is not empty, so not in the
    state a completed sale leaves. *)
Theorem printInvoice_follows_last_sale (st : State)
        (response : ApiResult CreatedSale) :
  (truthy (lastInvoiceId st) = true ->
   exists url, printInvoice st = WindowOpened url "_blank")
  /\ (printVisible st = true ->
      cart st <> []
      /\ exists url, printInvoice st = WindowOpened url "_blank")
  /\ (checkoutSucceeded st response = true ->
      printVisible (after (handleCheckout st response)) = false)
  /\ (checkoutSucceeded st response = false ->
   printInvoice (after (handleCheckout st response)) = printInvoice st)
  /\ (forall data message,
         cart st <> [] ->
         response = Returned true (Some data) message ->
         printInvoice (after (handleCheckout st response))
         = if truthy (js_or (cs__id data) (cs_id data))
           then WindowOpened
                  ("/invoice/"
                   ++ or_default (js_or (cs__id data) (cs_id data)) "")%string
                  "_blank"
           else PrintRefused (toast_error "No invoice to print")).
Proof.
  split; [|split; [|split; [|split]]].
  - unfold printInvoice. intros ->. eauto.
  - unfold printVisible, printInvoice. intros Hv.
    apply andb_prop in Hv. destruct Hv as [Hc ->].
    split; [|eauto]. intros E. rewrite E in Hc. discriminate Hc.
  - unfold checkoutSucceeded, handleCheckout.
    destruct (cart st) as [|item c]; [discriminate|].
    by_outcome response; try discriminate. reflexivity.
  - intros Hf. apply printInvoice_lastInvoiceId.
    destruct (handleCheckout_failed st response Hf) as [-> | ->]; reflexivity.
  - intros data message Hc ->. unfold handleCheckout.
    destruct (cart st) as [|item c]; [contradiction|]. reflexivity.
Qed.

Lemma printInvoice_follows_last_sale_witness :
  printInvoice (after (handleCheckout Sample.twoInCart Sample.created))
  = WindowOpened "/invoice/s1" "_blank"
  /\ printInvoice
       (after (handleCheckout
                 (after (handleCheckout Sample.twoInCart Sample.created))
                 Sample.created))
     = WindowOpened "/invoice/s1" "_blank"
  /\ printVisible (after (handleCheckout Sample.twoInCart Sample.created))
     = false
  /\ printVisible
       (run [EvAddToCart Sample.paracetamol; EvCheckout Sample.created;
             EvAddToCart Sample.paracetamol]) = true
  /\ exists url,
       printInvoice
         (run [EvAddToCart Sample.paracetamol; EvCheckout Sample.created;
               EvAddToCart Sample.paracetamol])
       = WindowOpened url "_blank".
Proof.
  split; [|split; [|split; [|split]]].
  - refine (proj2 (proj2 (proj2 (proj2
              (printInvoice_follows_last_sale Sample.twoInCart
                 Sample.created))))
              {| cs__id := Some "s1"; cs_id := None |} None _ eq_refl).
    discriminate.
  - rewrite (proj1 (proj2 (proj2 (proj2
               (printInvoice_follows_last_sale
                  (after (handleCheckout Sample.twoInCart Sample.created))
                  Sample.created)))) eq_refl).
    reflexivity.
  - exact (proj1 (proj2 (proj2
             (printInvoice_follows_last_sale Sample.twoInCart
                Sample.created))) eq_refl).
  - reflexivity.
  - exact (proj2 (proj1 (proj2
             (printInvoice_follows_last_sale
                (run [EvAddToCart Sample.paracetamol;
                      EvCheckout Sample.created;
                      EvAddToCart Sample.paracetamol])
                Sample.created)) eq_refl)).
Defined.

(** ** Search *)

Lemma trimStart_nonwhite (s : string) (a : ascii) (r : string) :
  trimStart s = String a r -> isWhiteSpace a = false.
Proof.
  induction s as [|b s IH]; simpl; [discriminate|].
  destruct (isWhiteSpace b) eqn:E; [exact IH|].
  intros [= <- _]. exact E.
Qed.

Lemma trimStart_blank (s : string) : trimStart s = "" <-> allWhite s = true.
Proof.
  induction s as [|a s IH]; simpl; [now split|].
  destruct (isWhiteSpace a); simpl; [exact IH|]. now split.
Qed.

Lemma trimEnd_cons (a : ascii) (s : string) :
  isWhiteSpace a = false -> trimEnd (String a s) = String a (trimEnd s).
Proof. intros E. simpl. rewrite E. now destruct (trimEnd s). Qed.

Lemma trimEnd_idem (s : string) : trimEnd (trimEnd s) = trimEnd s.
Proof.
  induction s as [|a s IH]; simpl; [reflexivity|].
  destruct (trimEnd s) as [|b r] eqn:E.
  - destruct (isWhiteSpace a) eqn:Ea; [reflexivity|]. simpl. now rewrite Ea.
  - simpl. simpl in IH. now rewrite IH.
Qed.

Lemma trim_idem (s : string) : trim (trim s) = trim s.
Proof.
  unfold trim. destruct (trimStart s) as [|a r] eqn:E; [reflexivity|].
  pose proof (trimStart_nonwhite _ _ _ E) as Ea.
  rewrite (trimEnd_cons _ _ Ea). simpl trimStart. rewrite Ea.
  rewrite <- (trimEnd_cons _ _ Ea). apply trimEnd_idem.
Qed.

Lemma trim_blank (s : string) : trim s = "" <-> allWhite s = true.
Proof.
  rewrite <- trimStart_blank. unfold trim.
  destruct (trimStart s) as [|a r] eqn:E; [now split|].
  rewrite (trimEnd_cons _ _ (trimStart_nonwhite _ _ _ E)). now split.
Qed.

Lemma eqb_empty (s : string) : String.eqb s "" = true <-> s = "".
Proof. apply String.eqb_eq. Qed.

(** X8.  A search request is made exactly when the query holds a character
    that is not white space.  For a query of white space only (the empty
    query included) [searchMedicines] empties the results, sends nothing,
    shows nothing and leaves the loading flag as it is; for any other query
    it sends one request and ends with the loading flag off. *)
Theorem search_request_iff_not_blank (view : SearchView) (query : string)
        (response : ApiResult (list MedicineData)) :
  (allWhite query = true ->
   searchMedicines view query response
   = {| sr_view := {| sv_results := []; sv_loading := sv_loading view |};
        sr_notices := []; sr_request := None |})
  /\ (allWhite query = false ->
      sr_request (searchMedicines view query response) <> None
      /\ sv_loading (sr_view (searchMedicines view query response)) = false).
Proof.
  unfold searchMedicines. split; intros H.
  - apply trim_blank in H. now rewrite H.
  - destruct (String.eqb (trim query) "") eqn:E.
    + apply String.eqb_eq, trim_blank in E. congruence.
    + by_outcome response; simpl; split; (discriminate || reflexivity).
Qed.

Lemma search_request_iff_not_blank_witness :
  sr_request (searchMedicines Scenario.idle "   " Sample.serverDown) = None
  /\ sr_request (searchMedicines Scenario.idle " para " Sample.serverDown)
     <> None.
Proof.
  destruct (search_request_iff_not_blank Scenario.idle "   " Sample.serverDown)
    as [Hb _].
  destruct (search_request_iff_not_blank Scenario.idle " para "
              Sample.serverDown) as [_ Hn].
  split.
  - now rewrite (Hb eq_refl).
  - exact (proj1 (Hn eq_refl)).
Defined.

Lemma searchMedicines_request (view : SearchView) (query : string)
      (response : ApiResult (list MedicineData)) :
  trim query <> "" ->
  sr_request (searchMedicines view query response)
  = Some [(searchParameter query, trim query)].
Proof.
  intros Hn. unfold searchMedicines, searchParameter.
  destruct (String.eqb (trim query) "") eqn:E;
    [apply String.eqb_eq in E; contradiction|].
  assert (Hr : (if barcodePattern (trim query)
                   && Nat.leb 3 (String.length (trim query))
                then searchMedicinesForBilling "" (Some (trim query))
                else searchMedicinesForBilling (trim query) None)
               = [(if barcodePattern (trim query)
                      && Nat.leb 3 (String.length (trim query))
                   then "barcode" else "q", trim query)]).
  { unfold searchMedicinesForBilling, truthy, or_default.
    destruct (barcodePattern (trim query)
              && Nat.leb 3 (String.length (trim query)));
      rewrite ?E; reflexivity. }
  cbv zeta. rewrite Hr. by_outcome response; reflexivity.
Qed.

(** X9.  Every search request carries exactly one parameter, whose value is
    the trimmed query: [barcode] when the trimmed query is made of ASCII
    letters and digits only and is at least 3 characters long, [q]
    otherwise.  In particular a one-word medicine name of three letters or
    more is sent as a barcode, not as a name. *)
Theorem search_sends_one_parameter (view : SearchView) (query : string)
        (response : ApiResult (list MedicineData)) :
  allWhite query = false ->
  sr_request (searchMedicines view query response)
  = Some [(searchParameter query, trim query)]
  /\ trim query <> ""
  /\ (searchParameter query = "barcode"
      <-> allAlnum (trim query) = true
          /\ (3 <= String.length (trim query))%nat)
  /\ (searchParameter query = "q" \/ searchParameter query = "barcode").
Proof.
  intros H.
  assert (Hn : trim query <> "").
  { intros E. apply trim_blank in E. congruence. }
  split; [now apply searchMedicines_request|]. split; [exact Hn|].
  unfold searchParameter, barcodePattern.
  apply String.eqb_neq in Hn. rewrite Hn. cbn [negb andb].
  destruct (allAlnum (trim query)); cbn [andb].
  - destruct (Nat.leb_spec 3 (String.length (trim query))) as [Hl|Hl].
    + split; [|now right]. split; [now split|reflexivity].
    + split; [|now left]. split; [discriminate|]. intros [_ Hge]. lia.
  - split; [|now left]. split; [discriminate|]. intros [Hf _]. discriminate.
Qed.

Lemma search_sends_one_parameter_witness :
  sr_request (searchMedicines Scenario.idle " aspirin " Sample.serverDown)
  = Some [("barcode", "aspirin")]
  /\ sr_request (searchMedicines Scenario.idle "vitamin c" Sample.serverDown)
     = Some [("q", "vitamin c")].
Proof.
  split.
  - exact (proj1 (search_sends_one_parameter Scenario.idle " aspirin "
                    Sample.serverDown eq_refl)).
  - exact (proj1 (search_sends_one_parameter Scenario.idle "vitamin c"
                    Sample.serverDown eq_refl)).
Defined.

(** X10.  The barcode field and the Enter key run the same search as the
    debounced query: for a barcode, or a query followed by Enter, that is
    not white space only, [handleBarcodeSearch] and [handleSearchKeyPress]
    give exactly what [searchMedicines] gives on the untrimmed text; on
    white space only, and on any other key, they do nothing at all. *)
Theorem search_entry_points_agree (view : SearchView) (input key : string)
        (response : ApiResult (list MedicineData)) :
  (allWhite input = false ->
   handleBarcodeSearch view input response
   = searchMedicines view input response
   /\ handleSearchKeyPress view "Enter" input response
      = searchMedicines view input response)
  /\ (allWhite input = true ->
      handleBarcodeSearch view input response
      = {| sr_view := view; sr_notices := []; sr_request := None |}
      /\ handleSearchKeyPress view "Enter" input response
         = {| sr_view := view; sr_notices := []; sr_request := None |})
  /\ (key <> "Enter" ->
      handleSearchKeyPress view key input response
      = {| sr_view := view; sr_notices := []; sr_request := None |}).
Proof.
  unfold handleBarcodeSearch, handleSearchKeyPress.
  split; [|split]; intros H.
  - assert (E : String.eqb (trim input) "" = false).
    { apply String.eqb_neq. intros E. apply trim_blank in E. congruence. }
    rewrite E. simpl. unfold searchMedicines. rewrite trim_idem. now split.
  - apply trim_blank in H. rewrite H. now split.
  - apply String.eqb_neq in H. now rewrite H.
Qed.

Lemma search_entry_points_agree_witness :
  handleBarcodeSearch Scenario.idle " 8901234 " Sample.serverDown
  = searchMedicines Scenario.idle " 8901234 " Sample.serverDown
  /\ handleSearchKeyPress Scenario.idle "a" "para" Sample.serverDown
     = {| sr_view := Scenario.idle; sr_notices := []; sr_request := None |}.
Proof.
  destruct (search_entry_points_agree Scenario.idle " 8901234 " "a"
              Sample.serverDown) as (Hn & _ & _).
  destruct (search_entry_points_agree Scenario.idle "para" "a"
              Sample.serverDown) as (_ & _ & Hk).
  split.
  - exact (proj1 (Hn eq_refl)).
  - apply Hk. discriminate.
Defined.

(** ** The API client *)

Lemma prefix_app (pattern rest : string) :
  String.prefix pattern (pattern ++ rest) = true.
Proof.
  induction pattern as [|a p IH]; simpl; [now destruct rest|].
  destruct (ascii_dec a a) as [_|Hn]; [exact IH|contradiction].
Qed.

Lemma includes_app (before pattern behind : string) :
  includes (before ++ pattern ++ behind) pattern = true.
Proof.
  induction before as [|a s IH].
  - simpl append. destruct (pattern ++ behind)%string eqn:E;
      unfold includes; fold includes; rewrite <- E, prefix_app; reflexivity.
  - simpl append. unfold includes; fold includes. rewrite IH.
    apply orb_true_r.
Qed.

Lemma or_default_nonempty (a : jsid) (d : string) :
  d <> "" -> or_default a d <> "".
Proof.
  intros Hd. destruct a as [s|]; simpl; [|exact Hd].
  destruct (String.eqb s "") eqn:E; [exact Hd|].
  now apply String.eqb_neq.
Qed.

Lemma decode_Returned {T : Type} (response : HttpResponse T)
      (success : bool) (data : option T) (message : jsid) :
  decode response = Returned success data message ->
  ok response = true
  /\ includes (or_default (contentType response) "") "application/json" = true
  /\ exists body,
       json response = Some body
       /\ success = ar_success body
       /\ data = ar_data body
       /\ message = ar_message body.
Proof.
  unfold decode.
  destruct (truthy (contentType response)); simpl; [|discriminate].
  destruct (includes _ "application/json"); [|discriminate].
  destruct (json response) as [body|]; [|discriminate].
  destruct (ok response); [|discriminate].
  intros [= <- <- <-]. split; [reflexivity|]. split; [reflexivity|].
  exists body. now repeat split.
Qed.

Lemma decode_Threw {T : Type} (response : HttpResponse T) (message : string) :
  decode response = Threw message -> message <> "".
Proof.
  unfold decode.
  destruct (truthy (contentType response)
            && includes (or_default (contentType response) "")
                        "application/json").
  - destruct (json response) as [body|].
    + destruct (ok response); [discriminate|].
      intros H. assert (E : message = failureMessage body) by congruence.
      rewrite E. unfold failureMessage.
      destruct (ar_errors body) as [[|e es]|];
        repeat apply or_default_nonempty; discriminate.
    + intros [= <-]. discriminate.
  - intros H.
    assert (E : message
                = or_default (Some (text response))
                             ("Request failed with status "
                              ++ show (status response))%string)
      by congruence.
    rewrite E. apply or_default_nonempty. discriminate.
Qed.

Lemma decode_not_ok {T : Type} (response : HttpResponse T) :
  ok response = false -> exists message, decode response = Threw message.
Proof.
  intros Hk. unfold decode.
  destruct (truthy (contentType response) && _); [|eauto].
  destruct (json response); [|eauto]. rewrite Hk. eauto.
Qed.

(** The response [request] decodes, when it comes to decoding one. *)
Lemma request_result {T : Type} (ss : Session) (endpoint : string)
      (first : Fetched (HttpResponse T))
      (refresh : Fetched (HttpResponse TokenPair))
      (retry : Fetched (HttpResponse T)) :
  (exists message,
      (first = Rejected message \/ retry = Rejected message)
      /\ rq_result (request ss endpoint first refresh retry)
         = Threw (fetchError message))
  \/ (exists response,
         (first = Resolved response \/ retry = Resolved response)
         /\ rq_result (request ss endpoint first refresh retry)
            = decode response).
Proof.
  unfold request. destruct first as [message|response].
  - left. exists message. split; [now left|reflexivity].
  - destruct ((status response =? 401) && truthy (refreshToken ss)).
    + destruct (rr_refreshed (refreshAccessToken ss refresh)).
      * destruct retry as [message|response'].
        -- left. exists message. split; [now right|reflexivity].
        -- right. exists response'. split; [now right|reflexivity].
      * right. exists response. split; [now left|reflexivity].
    + right. exists response. split; [now left|reflexivity].
Qed.

(** X11.  [request] returns a response only for an answer of the server
    that is [ok] (status 200 to 299), declares a JSON content type and has a
    body that parses; what it returns is the [success], [data] and [message]
    of that body.  Every other answer, and every failure to connect, is
    thrown as an error; an error thrown for an answer of the server has a
    message that is not empty. *)
Theorem request_returns_only_ok_json {T : Type} (ss : Session)
        (endpoint : string) (first : Fetched (HttpResponse T))
        (refresh : Fetched (HttpResponse TokenPair))
        (retry : Fetched (HttpResponse T)) :
  (forall success data message,
      rq_result (request ss endpoint first refresh retry)
      = Returned success data message ->
      exists response body,
        (first = Resolved response \/ retry = Resolved response)
        /\ 200 <= status response <= 299
        /\ includes (or_default (contentType response) "") "application/json"
           = true
        /\ json response = Some body
        /\ success = ar_success body
        /\ data = ar_data body
        /\ message = ar_message body)
  /\ (forall message,
         rq_result (request ss endpoint first refresh retry) = Threw message ->
         message <> ""
         \/ first = Rejected "" \/ retry = Rejected "").
Proof.
  destruct (request_result ss endpoint first refresh retry)
    as [(m & Hm & ->)|(response & Hr & ->)]; split.
  - discriminate.
  - intros message [= <-]. unfold fetchError.
    destruct (includes m "Failed to fetch" || includes m "NetworkError");
      [left; discriminate|].
    destruct (String.eqb m "") eqn:E.
    + apply String.eqb_eq in E. subst m. right. exact Hm.
    + left. now apply String.eqb_neq.
  - intros success data message H.
    destruct (decode_Returned _ _ _ _ H) as (Hk & Hc & body & Hj & Hs & Hd & Hmsg).
    exists response, body. unfold ok in Hk. apply andb_prop in Hk.
    destruct Hk as [H1 H2]. apply Z.leb_le in H1, H2.
    repeat split; try assumption.
  - intros message H. left. exact (decode_Threw _ _ H).
Qed.

Lemma request_returns_only_ok_json_witness :
  exists response body,
    (Resolved Scenario.unauthorized = Resolved response
     \/ Resolved Scenario.saleCreated = Resolved response)
    /\ 200 <= status response <= 299
    /\ includes (or_default (contentType response) "") "application/json" = true
    /\ json response = Some body
    /\ true = ar_success body
    /\ Some {| cs__id := Some "s1"; cs_id := None |} = ar_data body
    /\ None = ar_message body.
Proof.
  exact (proj1 (request_returns_only_ok_json Scenario.session "/sales"
                  (Resolved Scenario.unauthorized)
                  (Resolved Scenario.renewed)
                  (Resolved Scenario.saleCreated))
           true (Some {| cs__id := Some "s1"; cs_id := None |}) None eq_refl).
Defined.

Lemma refreshAccessToken_session (ss : Session)
      (world : Fetched (HttpResponse TokenPair)) :
  truthy (refreshToken ss) = true ->
  match renewal world with
  | Some tokens =>
      rr_refreshed (refreshAccessToken ss world) = true
      /\ rr_session (refreshAccessToken ss world)
         = setTokens ss (tp_accessToken tokens) (tp_refreshToken tokens)
  | None =>
      rr_refreshed (refreshAccessToken ss world) = false
      /\ rr_session (refreshAccessToken ss world) = clearTokens ss
  end.
Proof.
  intros Ht. unfold refreshAccessToken, renewal. rewrite Ht. simpl.
  destruct world as [message|response]; [now split|].
  destruct (ok response); [|now split].
  destruct (json response) as [data|]; [|now split].
  destruct (ar_success data); [|now split].
  destruct (ar_data data); now split.
Qed.

(** The session [request] leaves, by the way it went. *)
Lemma request_session_cases {T : Type} (ss : Session) (endpoint : string)
      (first : Fetched (HttpResponse T))
      (refresh : Fetched (HttpResponse TokenPair))
      (retry : Fetched (HttpResponse T)) :
  match first with
  | Rejected _ => rq_session (request ss endpoint first refresh retry) = ss
  | Resolved response =>
      if refreshes ss response
      then match renewal refresh with
           | Some tokens =>
               rq_session (request ss endpoint first refresh retry)
               = setTokens ss (tp_accessToken tokens) (tp_refreshToken tokens)
           | None =>
               rq_session (request ss endpoint first refresh retry)
               = clearTokens ss
               /\ rq_result (request ss endpoint first refresh retry)
                  = decode response
               /\ exists message, decode response = Threw message
           end
      else rq_session (request ss endpoint first refresh retry) = ss
  end.
Proof.
  destruct first as [message|response]; [reflexivity|].
  unfold request, refreshes.
  destruct ((status response =? 401) && truthy (refreshToken ss)) eqn:Hf;
    [|reflexivity].
  apply andb_prop in Hf. destruct Hf as [H401 Ht].
  pose proof (refreshAccessToken_session ss refresh Ht) as Hs.
  destruct (renewal refresh) as [tokens|]; destruct Hs as [-> <-].
  - now destruct retry.
  - split; [reflexivity|]. split; [reflexivity|].
    apply decode_not_ok. unfold ok. apply Z.eqb_eq in H401. rewrite H401.
    reflexivity.
Qed.

(** X12.  The tokens in memory and in [localStorage] are in step after
    [loadTokens], [setTokens] and [clearTokens], and [request] keeps them in
    step; it renews or drops them only on a 401: when the first answer is
    not a 401, or there is no refresh token, the session is left as it is;
    on a 401 with a refresh token, the tokens become those of the refresh
    answer when it is [ok] with [success] and data, and otherwise all four
    are dropped and the 401 itself is thrown as the error. *)
Theorem request_keeps_tokens_in_step {T : Type} (ss : Session)
        (endpoint : string) (first : Fetched (HttpResponse T))
        (refresh : Fetched (HttpResponse TokenPair))
        (retry : Fetched (HttpResponse T)) :
  (inSync (loadTokens ss)
   /\ inSync (clearTokens ss)
   /\ forall access refresh', inSync (setTokens ss access refresh'))
  /\ (inSync ss -> inSync (rq_session (request ss endpoint first refresh retry)))
  /\ (forall message,
         first = Rejected message ->
         rq_session (request ss endpoint first refresh retry) = ss)
  /\ (forall response,
         first = Resolved response ->
         refreshes ss response = false ->
         rq_session (request ss endpoint first refresh retry) = ss)
  /\ (forall response tokens,
         first = Resolved response ->
         refreshes ss response = true ->
         renewal refresh = Some tokens ->
         rq_session (request ss endpoint first refresh retry)
         = setTokens ss (tp_accessToken tokens) (tp_refreshToken tokens))
  /\ (forall response,
         first = Resolved response ->
         refreshes ss response = true ->
         renewal refresh = None ->
         rq_session (request ss endpoint first refresh retry) = clearTokens ss
         /\ rq_result (request ss endpoint first refresh retry)
            = decode response
         /\ exists message, decode response = Threw message).
Proof.
  pose proof (request_session_cases ss endpoint first refresh retry) as H.
  split; [now repeat split|].
  split; [|split; [|split; [|split]]].
  - intros Hsync. destruct first as [message|response]; [now rewrite H|].
    destruct (refreshes ss response).
    + destruct (renewal refresh) as [tokens|].
      * rewrite H. now split.
      * rewrite (proj1 H). now split.
    + now rewrite H.
  - intros message E. subst first. exact H.
  - intros response E Hf. subst first. now rewrite Hf in H.
  - intros response tokens E Hf Hn. subst first. now rewrite Hf, Hn in H.
  - intros response E Hf Hn. subst first. now rewrite Hf, Hn in H.
Qed.

Lemma request_keeps_tokens_in_step_witness :
  inSync (rq_session (request Scenario.session "/sales"
                              (Resolved Scenario.unauthorized)
                              (Resolved Scenario.renewed)
                              (Resolved Scenario.saleCreated)))
  /\ rq_session (request Scenario.session "/sales"
                         (Resolved Scenario.unauthorized)
                         (Resolved Scenario.renewed)
                         (Resolved Scenario.saleCreated))
     = setTokens Scenario.session "a2" "r2"
  /\ rq_session (request Scenario.session "/sales"
                         (Resolved Scenario.unauthorized)
                         (Resolved Scenario.refused)
                         (Resolved Scenario.saleCreated))
     = clearTokens Scenario.session.
Proof.
  split; [|split].
  - apply (proj1 (proj2 (request_keeps_tokens_in_step Scenario.session
                    "/sales"
                    (Resolved Scenario.unauthorized)
                    (Resolved Scenario.renewed)
                    (Resolved Scenario.saleCreated)))).
    split; reflexivity.
  - exact (proj1 (proj2 (proj2 (proj2 (proj2
             (request_keeps_tokens_in_step Scenario.session "/sales"
                (Resolved Scenario.unauthorized)
                (Resolved Scenario.renewed)
                (Resolved Scenario.saleCreated))))))
             Scenario.unauthorized (mkTokenPair "a2" "r2")
             eq_refl eq_refl eq_refl).
  - exact (proj1 (proj2 (proj2 (proj2 (proj2 (proj2
             (request_keeps_tokens_in_step Scenario.session "/sales"
                (Resolved Scenario.unauthorized)
                (Resolved Scenario.refused)
                (Resolved Scenario.saleCreated))))))
             Scenario.unauthorized eq_refl eq_refl eq_refl)).
Defined.

Lemma or_default_Some_empty (s : string) : or_default (Some s) "" = s.
Proof.
  simpl. destruct (String.eqb s "") eqn:E; [|reflexivity].
  apply String.eqb_eq in E. now subst.
Qed.

(** The fetches [request] makes, by the way it went. *)
Lemma request_sent_cases {T : Type} (ss : Session) (endpoint : string)
      (first : Fetched (HttpResponse T))
      (refresh : Fetched (HttpResponse TokenPair))
      (retry : Fetched (HttpResponse T)) :
  let call := SentCall (baseURL ss ++ endpoint) (bearer (accessToken ss)) in
  let renew := SentRefresh (baseURL ss ++ "/auth/refresh-token")
                           (refreshToken ss) in
  match first with
  | Rejected _ =>
      rq_sent (request ss endpoint first refresh retry) = [call]
  | Resolved response =>
      if refreshes ss response
      then match renewal refresh with
           | None =>
               rq_sent (request ss endpoint first refresh retry)
               = [call; renew]
           | Some tokens =>
               rq_sent (request ss endpoint first refresh retry)
               = [call; renew;
                  SentCall (baseURL ss ++ endpoint)
                    (Some ("Bearer " ++ tp_accessToken tokens)%string)]
               /\ forall response',
                    retry = Resolved response' ->
                    rq_result (request ss endpoint first refresh retry)
                    = decode response'
           end
      else rq_sent (request ss endpoint first refresh retry) = [call]
  end.
Proof.
  intros call renew.
  destruct first as [message|response]; [reflexivity|].
  unfold request, refreshes.
  destruct ((status response =? 401) && truthy (refreshToken ss)) eqn:Hf;
    [|reflexivity].
  apply andb_prop in Hf. destruct Hf as [_ Ht].
  pose proof (refreshAccessToken_session ss refresh Ht) as Hs.
  assert (Hsent : rr_sent (refreshAccessToken ss refresh) = [renew]).
  { unfold refreshAccessToken. rewrite Ht. simpl.
    destruct refresh as [m|r]; [reflexivity|].
    destruct (ok r); [|reflexivity].
    destruct (json r) as [data|]; [|reflexivity].
    destruct (ar_success data); [|reflexivity].
    now destruct (ar_data data). }
  destruct (renewal refresh) as [tokens|]; destruct Hs as [Hr Hss];
    rewrite Hr, Hsent.
  - rewrite Hss. simpl accessToken. rewrite or_default_Some_empty.
    destruct retry as [m|r']; (split; [reflexivity|]);
      intros response' [= <-]; reflexivity.
  - reflexivity.
Qed.

(** X13.  [request] never loops: it makes one fetch of the endpoint, with
    the bearer of the access token it has; on a 401 with a refresh token it
    adds one fetch of [/auth/refresh-token], posting that refresh token;
    and only when that renews the tokens it fetches the endpoint once more,
    with the bearer of the new access token.  The answer to that second
    fetch is decoded as it is: a second 401 is thrown, not refreshed
    again. *)
Theorem request_never_loops {T : Type} (ss : Session) (endpoint : string)
        (first : Fetched (HttpResponse T))
        (refresh : Fetched (HttpResponse TokenPair))
        (retry : Fetched (HttpResponse T)) :
  let call := SentCall (baseURL ss ++ endpoint) (bearer (accessToken ss)) in
  let renew := SentRefresh (baseURL ss ++ "/auth/refresh-token")
                           (refreshToken ss) in
  (List.length (rq_sent (request ss endpoint first refresh retry)) <= 3)%nat
  /\ (forall message,
         first = Rejected message ->
         rq_sent (request ss endpoint first refresh retry) = [call])
  /\ (forall response,
         first = Resolved response ->
         refreshes ss response = false ->
         rq_sent (request ss endpoint first refresh retry) = [call])
  /\ (forall response,
         first = Resolved response ->
         refreshes ss response = true ->
         renewal refresh = None ->
         rq_sent (request ss endpoint first refresh retry) = [call; renew])
  /\ (forall response tokens,
         first = Resolved response ->
         refreshes ss response = true ->
         renewal refresh = Some tokens ->
         rq_sent (request ss endpoint first refresh retry)
         = [call; renew;
            SentCall (baseURL ss ++ endpoint)
                     (Some ("Bearer " ++ tp_accessToken tokens)%string)]
         /\ forall response',
              retry = Resolved response' ->
              rq_result (request ss endpoint first refresh retry)
              = decode response').
Proof.
  intros call renew.
  pose proof (request_sent_cases ss endpoint first refresh retry) as Hshape.
  cbv zeta in Hshape. fold call renew in Hshape.
  split; [|split; [|split; [|split]]].
  - destruct first as [message|response]; [rewrite Hshape; simpl; lia|].
    destruct (refreshes ss response).
    + destruct (renewal refresh); [destruct Hshape as [-> _]|rewrite Hshape];
        simpl; lia.
    + rewrite Hshape. simpl. lia.
  - intros message E. subst first. exact Hshape.
  - intros response E Hf. subst first. now rewrite Hf in Hshape.
  - intros response E Hf Hn. subst first. now rewrite Hf, Hn in Hshape.
  - intros response tokens E Hf Hn. subst first.
    now rewrite Hf, Hn in Hshape.
Qed.

Lemma request_never_loops_witness :
  rq_sent (request Scenario.session "/sales"
                   (Resolved Scenario.unauthorized)
                   (Resolved Scenario.renewed)
                   (Resolved Scenario.unauthorized))
  = [SentCall "http://localhost:5000/api/sales" (Some "Bearer a1");
     SentRefresh "http://localhost:5000/api/auth/refresh-token" (Some "r1");
     SentCall "http://localhost:5000/api/sales" (Some "Bearer a2")]
  /\ rq_result (request Scenario.session "/sales"
                        (Resolved Scenario.unauthorized)
                        (Resolved Scenario.renewed)
                        (Resolved Scenario.unauthorized))
     = Threw "Token expired".
Proof.
  destruct (proj2 (proj2 (proj2 (proj2
              (request_never_loops Scenario.session "/sales"
                 (Resolved Scenario.unauthorized)
                 (Resolved Scenario.renewed)
                 (Resolved Scenario.unauthorized)))))
              Scenario.unauthorized (mkTokenPair "a2" "r2")
              eq_refl eq_refl eq_refl) as [Hsent Hres].
  split; [exact Hsent|]. exact (Hres Scenario.unauthorized eq_refl).
Defined.

(** X14.  A failure to connect reaches the cashier in plain words: when the
    fetch of [/sales] rejects with a message that contains "Failed to fetch"
    or "NetworkError", [request] throws "Unable to connect to server. ..."
    after that single fetch and without touching the tokens, and a checkout
    with a cart that is not empty shows exactly that text and keeps the
    cart. *)
Theorem connection_failure_is_rephrased (st : State) (ss : Session)
        (before behind : string)
        (first : Fetched (HttpResponse CreatedSale))
        (refresh : Fetched (HttpResponse TokenPair))
        (retry : Fetched (HttpResponse CreatedSale)) :
  cart st <> [] ->
  first = Rejected (before ++ "Failed to fetch" ++ behind)
  \/ first = Rejected (before ++ "NetworkError" ++ behind) ->
  rq_result (createSale ss first refresh retry) = Threw connectionMsg
  /\ rq_session (createSale ss first refresh retry) = ss
  /\ List.length (rq_sent (createSale ss first refresh retry)) = 1%nat
  /\ notices (handleCheckout st (rq_result (createSale ss first refresh retry)))
     = [console_error "Error creating sale:"; toast_error connectionMsg]
  /\ cart (after (handleCheckout st
                    (rq_result (createSale ss first refresh retry))))
     = cart st.
Proof.
  intros Hc Hf.
  assert (Hr : rq_result (createSale ss first refresh retry)
               = Threw connectionMsg).
  { unfold createSale, request.
    destruct Hf as [-> | ->]; cbn [rq_result]; unfold fetchError;
      rewrite includes_app; [reflexivity|].
    now rewrite orb_true_r. }
  split; [exact Hr|]. rewrite Hr.
  split; [destruct Hf as [-> | ->]; reflexivity|].
  split; [destruct Hf as [-> | ->]; reflexivity|].
  unfold handleCheckout. destruct (cart st) as [|item c] eqn:E;
    [contradiction|].
  split; [reflexivity|]. simpl. exact E.
Qed.

Lemma connection_failure_is_rephrased_witness :
  notices (handleCheckout Sample.twoInCart
             (rq_result (createSale Scenario.session
                           (Rejected "TypeError: Failed to fetch")
                           (Resolved Scenario.renewed)
                           (Resolved Scenario.saleCreated))))
  = [console_error "Error creating sale:"; toast_error connectionMsg].
Proof.
  refine (proj1 (proj2 (proj2 (proj2
            (connection_failure_is_rephrased Sample.twoInCart Scenario.session
               "TypeError: " ""
               (Rejected "TypeError: Failed to fetch")
               (Resolved Scenario.renewed)
               (Resolved Scenario.saleCreated) _ _))))).
  - discriminate.
  - left. reflexivity.
Defined.

(** X15.  A sale the server rejects is reported in the server's words: when
    the answer to [/sales] is not [ok] (and is not a 401 that is refreshed),
    has a JSON body with a message that is not empty and no field errors, a
    checkout with a cart that is not empty shows exactly that message, after
    one fetch, and keeps the cart, the customer and the discount. *)
Theorem rejected_sale_shows_server_message (st : State) (ss : Session)
        (response : HttpResponse CreatedSale) (body : ApiResponse CreatedSale)
        (words : string)
        (refresh : Fetched (HttpResponse TokenPair))
        (retry : Fetched (HttpResponse CreatedSale)) :
  cart st <> [] ->
  ok response = false ->
  refreshes ss response = false ->
  truthy (contentType response) = true ->
  includes (or_default (contentType response) "") "application/json" = true ->
  json response = Some body ->
  ar_errors body = None ->
  ar_message body = Some words ->
  words <> "" ->
  notices (handleCheckout st
             (rq_result (createSale ss (Resolved response) refresh retry)))
  = [console_error "Error creating sale:"; toast_error words]
  /\ List.length (rq_sent (createSale ss (Resolved response) refresh retry))
     = 1%nat
  /\ cart (after (handleCheckout st
                    (rq_result (createSale ss (Resolved response) refresh retry))))
     = cart st
  /\ customerName (after (handleCheckout st
                    (rq_result (createSale ss (Resolved response) refresh retry))))
     = customerName st
  /\ discountPercentage (after (handleCheckout st
                    (rq_result (createSale ss (Resolved response) refresh retry))))
     = discountPercentage st.
Proof.
  intros Hc Hk Hf Ht Hi Hj He Hm Hw.
  assert (Hr : rq_result (createSale ss (Resolved response) refresh retry)
               = Threw words).
  { unfold createSale, request. unfold refreshes in Hf. rewrite Hf.
    simpl rq_result. unfold decode. rewrite Ht, Hi, Hj, Hk. simpl.
    unfold failureMessage. rewrite He, Hm. simpl.
    apply String.eqb_neq in Hw. now rewrite Hw. }
  rewrite Hr. unfold handleCheckout.
  destruct (cart st) as [|item c] eqn:E; [contradiction|].
  split.
  - simpl. apply String.eqb_neq in Hw. now rewrite Hw.
  - split.
    + unfold createSale, request. unfold refreshes in Hf. now rewrite Hf.
    + simpl. now rewrite E.
Qed.

Lemma rejected_sale_shows_server_message_witness :
  notices (handleCheckout Sample.twoInCart
             (rq_result (createSale Scenario.session
                           (Resolved Scenario.rejectedSale)
                           (Resolved Scenario.renewed)
                           (Resolved Scenario.saleCreated))))
  = [console_error "Error creating sale:";
     toast_error "Insufficient stock for Paracetamol"].
Proof.
  refine (proj1 (rejected_sale_shows_server_message Sample.twoInCart
                   Scenario.session Scenario.rejectedSale
                   (mkApiResponse false None
                      (Some "Insufficient stock for Paracetamol") None)
                   "Insufficient stock for Paracetamol"
                   (Resolved Scenario.renewed) (Resolved Scenario.saleCreated)
                   _ eq_refl eq_refl eq_refl eq_refl eq_refl eq_refl eq_refl _));
    discriminate.
Defined.

(** X16.  The stock check gives way on any failure of the batches request:
    when the fetch rejects, or the server answers with a status that is not
    [ok] (and is not a 401 that is refreshed), [getMedicineBatches] throws,
    and [updateQuantity] with a positive new quantity sets that quantity all
    the same, logging "Error checking stock:" and showing nothing. *)
Theorem stock_check_gives_way_on_failure (st : State) (ss : Session)
        (medicineId : string) (delta : Z) (item : CartItem)
        (first : Fetched (HttpResponse BatchesData))
        (refresh : Fetched (HttpResponse TokenPair))
        (retry : Fetched (HttpResponse BatchesData)) :
  reachable st ->
  lookup (cart st) (Some medicineId) = Some item ->
  0 < quantity item + delta ->
  (exists message, first = Rejected message)
  \/ (exists response,
         first = Resolved response
         /\ ok response = false
         /\ refreshes ss response = false) ->
  lookup (fst (updateQuantity (cart st) medicineId delta
                 (rq_result (getMedicineBatches ss medicineId
                                                first refresh retry))))
         (Some medicineId)
  = Some (setQuantity item (quantity item + delta))
  /\ snd (updateQuantity (cart st) medicineId delta
            (rq_result (getMedicineBatches ss medicineId first refresh retry)))
     = [console_error "Error checking stock:"].
Proof.
  intros _ L Hpos Hf.
  assert (Hr : exists message,
             rq_result (getMedicineBatches ss medicineId first refresh retry)
             = Threw message).
  { unfold getMedicineBatches, request.
    destruct Hf as [(message & ->)|(response & -> & Hk & Hn)].
    - eexists. reflexivity.
    - unfold refreshes in Hn. rewrite Hn. simpl rq_result.
      now apply decode_not_ok. }
  destruct Hr as (message & ->).
  rewrite updateQuantity_unfold, L. cbv zeta.
  apply Z.leb_gt in Hpos. rewrite Hpos. simpl. split; [|reflexivity].
  exact (lookup_bump_same _ (fun _ => quantity item + delta) _ _ L).
Qed.

Lemma stock_check_gives_way_on_failure_witness :
  option_map quantity
    (lookup (fst (updateQuantity (cart Sample.twoInCart) "m1" 20
                    (rq_result (getMedicineBatches Scenario.session "m1"
                                  (Resolved Scenario.serverError)
                                  (Resolved Scenario.renewed)
                                  (Resolved Scenario.serverError)))))
            (Some "m1"))
  = Some 22.
Proof.
  refine (f_equal (option_map quantity)
            (proj1 (stock_check_gives_way_on_failure Sample.twoInCart
                      Scenario.session "m1" 20
                      (setQuantity Sample.firstUnit 2)
                      (Resolved Scenario.serverError)
                      (Resolved Scenario.renewed)
                      (Resolved Scenario.serverError)
                      (reachable_run _) eq_refl eq_refl _))).
  right. exists Scenario.serverError. repeat split.
Defined.

(** X17.  An expired access token does not cost the cashier the sale: when
    the answer to [/sales] is a 401, the refresh renews the tokens and the
    second answer is a created sale, a checkout with a cart that is not
    empty completes (success toast, cart emptied, invoice id taken from the
    created sale) and the session holds the new tokens. *)
Theorem expired_token_does_not_lose_sale (st : State) (ss : Session)
        (response response' : HttpResponse CreatedSale)
        (refresh : Fetched (HttpResponse TokenPair)) (tokens : TokenPair)
        (data : CreatedSale) (message : jsid) :
  cart st <> [] ->
  refreshes ss response = true ->
  renewal refresh = Some tokens ->
  decode response' = Returned true (Some data) message ->
  notices (handleCheckout st
             (rq_result (createSale ss (Resolved response) refresh
                                    (Resolved response'))))
  = [toast_success "Sale completed successfully!"]
  /\ cart (after (handleCheckout st
                    (rq_result (createSale ss (Resolved response) refresh
                                           (Resolved response')))))
     = []
  /\ lastInvoiceId (after (handleCheckout st
                    (rq_result (createSale ss (Resolved response) refresh
                                           (Resolved response')))))
     = js_or (cs__id data) (cs_id data)
  /\ rq_session (createSale ss (Resolved response) refresh (Resolved response'))
     = setTokens ss (tp_accessToken tokens) (tp_refreshToken tokens).
Proof.
  intros Hc Hf Hn Hd.
  pose proof (request_sent_cases ss "/sales" (Resolved response) refresh
                (Resolved response')) as Hsent.
  pose proof (request_session_cases ss "/sales" (Resolved response) refresh
                (Resolved response')) as Hsession.
  cbv beta iota zeta in Hsent, Hsession.
  rewrite Hf, Hn in Hsent, Hsession.
  destruct Hsent as [_ Hres].
  unfold createSale. rewrite (Hres response' eq_refl), Hd, Hsession.
  unfold handleCheckout. destruct (cart st) as [|item c]; [contradiction|].
  now repeat split.
Qed.

Lemma expired_token_does_not_lose_sale_witness :
  notices (handleCheckout Sample.twoInCart
             (rq_result (createSale Scenario.session
                           (Resolved Scenario.unauthorized)
                           (Resolved Scenario.renewed)
                           (Resolved Scenario.saleCreated))))
  = [toast_success "Sale completed successfully!"]
  /\ rq_session (createSale Scenario.session
                            (Resolved Scenario.unauthorized)
                            (Resolved Scenario.renewed)
                            (Resolved Scenario.saleCreated))
     = setTokens Scenario.session "a2" "r2".
Proof.
  assert (Hc : cart Sample.twoInCart <> []) by discriminate.
  destruct (expired_token_does_not_lose_sale Sample.twoInCart Scenario.session
              Scenario.unauthorized Scenario.saleCreated
              (Resolved Scenario.renewed) (mkTokenPair "a2" "r2")
              {| cs__id := Some "s1"; cs_id := None |} None
              Hc eq_refl eq_refl eq_refl) as (Hn & _ & _ & Hs).
  split; [exact Hn|exact Hs].
Defined.

(** ** The discount field *)

(** X18.  In every state of the page the discount percentage is a number:
    whatever [parseFloat] made of the text of the discount field, NaN for an
    emptied field included, the discount stored is never NaN. *)
Theorem discount_is_never_nan (st : State) :
  reachable st -> is_nan (discountPercentage st) = false.
Proof.
  induction 1 as [|st e _ IH]; [reflexivity|].
  destruct e; simpl; try exact IH.
  - unfold discountOfInput. destruct (is_nan parsed) eqn:En; [reflexivity|].
    simpl. destruct (is_zero parsed); [reflexivity|exact En].
  - unfold handleCheckout. destruct (cart st); [exact IH|].
    by_outcome response; simpl; (exact IH || reflexivity).
Qed.

Lemma discount_is_never_nan_witness :
  is_nan (discountPercentage (run [EvDiscount nan])) = false
  /\ discountPercentage (run [EvDiscount nan]) = 0%float.
Proof.
  split.
  - apply (discount_is_never_nan (run [EvDiscount nan])).
    apply reachable_run.
  - reflexivity.
Defined.
